(** * FocusClock: the phase/timer state machine and its segment log

    A shallow embedding of [src/focusclock/logic.py] (classes [ClockState],
    [LogEntry] and [FocusClockLogic]) and the properties of the phase
    engine that the specification states about it.

    Conventions of the embedding
    - Python [int] is unbounded, hence [Z]; [Set[int]] is [gset Z].
    - The string-valued fields [profile], [mode], [after_micro] and
      [_segment_kind] only ever hold the literals that occur in the source;
      each is an inductive type with one constructor per literal (the empty
      string included where the source uses it as "none").
    - [datetime] values are instants on an integer time line, counted in
      microseconds, the resolution of [datetime]; [datetime.now()] is the
      next reading of a wall clock [wall], a sequence of readings indexed by
      the number of readings taken so far.
    - The two callbacks handed to [FocusClockLogic.__init__] are effects on the
      outside world; every invocation is recorded, in order, in [calls]. *)

From Stdlib Require Import ZArith Bool List String Lia.
From stdpp Require Import base decidable numbers list gmap.

Local Open Scope Z_scope.

(** ** Data model *)

Inductive Profile : Type := study | worklog.

Inductive Mode : Type := focus | break | lunch.

(** [after_micro]: [no_after] is the empty string. *)
Inductive AfterMicro : Type := no_after | resume_focus | go_break | go_focus.

(** Segment kinds; [NO_KIND] is the empty string of a closed cursor. *)
Inductive Kind : Type :=
  NO_KIND | FOCUS | BREAK | LUNCH | SCREEN_BREAK | PAUSED | WORK | PAUSE.

#[global] Instance Profile_eq_dec : EqDecision Profile.
Proof. solve_decision. Defined.
#[global] Instance Mode_eq_dec : EqDecision Mode.
Proof. solve_decision. Defined.
#[global] Instance AfterMicro_eq_dec : EqDecision AfterMicro.
Proof. solve_decision. Defined.
#[global] Instance Kind_eq_dec : EqDecision Kind.
Proof. solve_decision. Defined.

(** [LogEntry(kind, start, end)]; the fields [start] and [end] are [start_at]
    and [end_at] here ([end] is a keyword, [start] is a method below). *)
Record LogEntry : Type := mkLogEntry {
  kind : Kind;
  start_at : Z;
  end_at : Z
}.


Definition DEFAULT_REMIND_AT : gset Z := {[ 40 * 60; 20 * 60; 0 ]}.

Record ClockState : Type := mkClockState {
  focus_min : Z;
  break_min : Z;
  micro_sec : Z;
  session_goal : Z;
  screen_breaks_enabled : bool;
  profile : Profile;
  work_elapsed_sec : Z;
  last_export_date : string;
  flushed_log_idx : Z;
  mode : Mode;
  remaining : Z;
  completed_units : Z;
  microbreak_active : bool;
  microbreak_remaining : Z;
  after_micro : AfterMicro;
  finished : bool;
  running : bool;
  pre_lunch_mode : Mode;
  pre_lunch_remaining : Z;
  pre_lunch_was_running : bool;
  reminded_this_focus : gset Z;
  remind_at : gset Z;
  total_open_sec : Z;
  paused_sec : Z;
  microbreak_sec : Z;
  focus_work_sec : Z;
  log : list LogEntry;
  _segment_kind : Kind;
  _segment_start : option Z
}.

Definition set_focus_min (v : Z) (c : ClockState) : ClockState :=
  mkClockState v (break_min c) (micro_sec c) (session_goal c)
    (screen_breaks_enabled c) (profile c) (work_elapsed_sec c)
    (last_export_date c) (flushed_log_idx c) (mode c) (remaining c)
    (completed_units c) (microbreak_active c) (microbreak_remaining c)
    (after_micro c) (finished c) (running c) (pre_lunch_mode c)
    (pre_lunch_remaining c) (pre_lunch_was_running c) (reminded_this_focus
    c) (remind_at c) (total_open_sec c) (paused_sec c) (microbreak_sec c)
    (focus_work_sec c) (log c) (_segment_kind c) (_segment_start c).

Definition set_break_min (v : Z) (c : ClockState) : ClockState :=
  mkClockState (focus_min c) v (micro_sec c) (session_goal c)
    (screen_breaks_enabled c) (profile c) (work_elapsed_sec c)
    (last_export_date c) (flushed_log_idx c) (mode c) (remaining c)
    (completed_units c) (microbreak_active c) (microbreak_remaining c)
    (after_micro c) (finished c) (running c) (pre_lunch_mode c)
    (pre_lunch_remaining c) (pre_lunch_was_running c) (reminded_this_focus
    c) (remind_at c) (total_open_sec c) (paused_sec c) (microbreak_sec c)
    (focus_work_sec c) (log c) (_segment_kind c) (_segment_start c).

Definition set_micro_sec (v : Z) (c : ClockState) : ClockState :=
  mkClockState (focus_min c) (break_min c) v (session_goal c)
    (screen_breaks_enabled c) (profile c) (work_elapsed_sec c)
    (last_export_date c) (flushed_log_idx c) (mode c) (remaining c)
    (completed_units c) (microbreak_active c) (microbreak_remaining c)
    (after_micro c) (finished c) (running c) (pre_lunch_mode c)
    (pre_lunch_remaining c) (pre_lunch_was_running c) (reminded_this_focus
    c) (remind_at c) (total_open_sec c) (paused_sec c) (microbreak_sec c)
    (focus_work_sec c) (log c) (_segment_kind c) (_segment_start c).

Definition set_session_goal (v : Z) (c : ClockState) : ClockState :=
  mkClockState (focus_min c) (break_min c) (micro_sec c) v
    (screen_breaks_enabled c) (profile c) (work_elapsed_sec c)
    (last_export_date c) (flushed_log_idx c) (mode c) (remaining c)
    (completed_units c) (microbreak_active c) (microbreak_remaining c)
    (after_micro c) (finished c) (running c) (pre_lunch_mode c)
    (pre_lunch_remaining c) (pre_lunch_was_running c) (reminded_this_focus
    c) (remind_at c) (total_open_sec c) (paused_sec c) (microbreak_sec c)
    (focus_work_sec c) (log c) (_segment_kind c) (_segment_start c).

Definition set_screen_breaks_enabled (v : bool) (c : ClockState) : ClockState :=
  mkClockState (focus_min c) (break_min c) (micro_sec c) (session_goal c) v
    (profile c) (work_elapsed_sec c) (last_export_date c) (flushed_log_idx
    c) (mode c) (remaining c) (completed_units c) (microbreak_active c)
    (microbreak_remaining c) (after_micro c) (finished c) (running c)
    (pre_lunch_mode c) (pre_lunch_remaining c) (pre_lunch_was_running c)
    (reminded_this_focus c) (remind_at c) (total_open_sec c) (paused_sec c)
    (microbreak_sec c) (focus_work_sec c) (log c) (_segment_kind c)
    (_segment_start c).

Definition set_work_elapsed_sec (v : Z) (c : ClockState) : ClockState :=
  mkClockState (focus_min c) (break_min c) (micro_sec c) (session_goal c)
    (screen_breaks_enabled c) (profile c) v (last_export_date c)
    (flushed_log_idx c) (mode c) (remaining c) (completed_units c)
    (microbreak_active c) (microbreak_remaining c) (after_micro c) (finished
    c) (running c) (pre_lunch_mode c) (pre_lunch_remaining c)
    (pre_lunch_was_running c) (reminded_this_focus c) (remind_at c)
    (total_open_sec c) (paused_sec c) (microbreak_sec c) (focus_work_sec c)
    (log c) (_segment_kind c) (_segment_start c).

Definition set_mode (v : Mode) (c : ClockState) : ClockState :=
  mkClockState (focus_min c) (break_min c) (micro_sec c) (session_goal c)
    (screen_breaks_enabled c) (profile c) (work_elapsed_sec c)
    (last_export_date c) (flushed_log_idx c) v (remaining c)
    (completed_units c) (microbreak_active c) (microbreak_remaining c)
    (after_micro c) (finished c) (running c) (pre_lunch_mode c)
    (pre_lunch_remaining c) (pre_lunch_was_running c) (reminded_this_focus
    c) (remind_at c) (total_open_sec c) (paused_sec c) (microbreak_sec c)
    (focus_work_sec c) (log c) (_segment_kind c) (_segment_start c).

Definition set_remaining (v : Z) (c : ClockState) : ClockState :=
  mkClockState (focus_min c) (break_min c) (micro_sec c) (session_goal c)
    (screen_breaks_enabled c) (profile c) (work_elapsed_sec c)
    (last_export_date c) (flushed_log_idx c) (mode c) v (completed_units c)
    (microbreak_active c) (microbreak_remaining c) (after_micro c) (finished
    c) (running c) (pre_lunch_mode c) (pre_lunch_remaining c)
    (pre_lunch_was_running c) (reminded_this_focus c) (remind_at c)
    (total_open_sec c) (paused_sec c) (microbreak_sec c) (focus_work_sec c)
    (log c) (_segment_kind c) (_segment_start c).

Definition set_completed_units (v : Z) (c : ClockState) : ClockState :=
  mkClockState (focus_min c) (break_min c) (micro_sec c) (session_goal c)
    (screen_breaks_enabled c) (profile c) (work_elapsed_sec c)
    (last_export_date c) (flushed_log_idx c) (mode c) (remaining c) v
    (microbreak_active c) (microbreak_remaining c) (after_micro c) (finished
    c) (running c) (pre_lunch_mode c) (pre_lunch_remaining c)
    (pre_lunch_was_running c) (reminded_this_focus c) (remind_at c)
    (total_open_sec c) (paused_sec c) (microbreak_sec c) (focus_work_sec c)
    (log c) (_segment_kind c) (_segment_start c).

Definition set_microbreak_active (v : bool) (c : ClockState) : ClockState :=
  mkClockState (focus_min c) (break_min c) (micro_sec c) (session_goal c)
    (screen_breaks_enabled c) (profile c) (work_elapsed_sec c)
    (last_export_date c) (flushed_log_idx c) (mode c) (remaining c)
    (completed_units c) v (microbreak_remaining c) (after_micro c) (finished
    c) (running c) (pre_lunch_mode c) (pre_lunch_remaining c)
    (pre_lunch_was_running c) (reminded_this_focus c) (remind_at c)
    (total_open_sec c) (paused_sec c) (microbreak_sec c) (focus_work_sec c)
    (log c) (_segment_kind c) (_segment_start c).

Definition set_microbreak_remaining (v : Z) (c : ClockState) : ClockState :=
  mkClockState (focus_min c) (break_min c) (micro_sec c) (session_goal c)
    (screen_breaks_enabled c) (profile c) (work_elapsed_sec c)
    (last_export_date c) (flushed_log_idx c) (mode c) (remaining c)
    (completed_units c) (microbreak_active c) v (after_micro c) (finished c)
    (running c) (pre_lunch_mode c) (pre_lunch_remaining c)
    (pre_lunch_was_running c) (reminded_this_focus c) (remind_at c)
    (total_open_sec c) (paused_sec c) (microbreak_sec c) (focus_work_sec c)
    (log c) (_segment_kind c) (_segment_start c).

Definition set_after_micro (v : AfterMicro) (c : ClockState) : ClockState :=
  mkClockState (focus_min c) (break_min c) (micro_sec c) (session_goal c)
    (screen_breaks_enabled c) (profile c) (work_elapsed_sec c)
    (last_export_date c) (flushed_log_idx c) (mode c) (remaining c)
    (completed_units c) (microbreak_active c) (microbreak_remaining c) v
    (finished c) (running c) (pre_lunch_mode c) (pre_lunch_remaining c)
    (pre_lunch_was_running c) (reminded_this_focus c) (remind_at c)
    (total_open_sec c) (paused_sec c) (microbreak_sec c) (focus_work_sec c)
    (log c) (_segment_kind c) (_segment_start c).

Definition set_finished (v : bool) (c : ClockState) : ClockState :=
  mkClockState (focus_min c) (break_min c) (micro_sec c) (session_goal c)
    (screen_breaks_enabled c) (profile c) (work_elapsed_sec c)
    (last_export_date c) (flushed_log_idx c) (mode c) (remaining c)
    (completed_units c) (microbreak_active c) (microbreak_remaining c)
    (after_micro c) v (running c) (pre_lunch_mode c) (pre_lunch_remaining c)
    (pre_lunch_was_running c) (reminded_this_focus c) (remind_at c)
    (total_open_sec c) (paused_sec c) (microbreak_sec c) (focus_work_sec c)
    (log c) (_segment_kind c) (_segment_start c).

Definition set_running (v : bool) (c : ClockState) : ClockState :=
  mkClockState (focus_min c) (break_min c) (micro_sec c) (session_goal c)
    (screen_breaks_enabled c) (profile c) (work_elapsed_sec c)
    (last_export_date c) (flushed_log_idx c) (mode c) (remaining c)
    (completed_units c) (microbreak_active c) (microbreak_remaining c)
    (after_micro c) (finished c) v (pre_lunch_mode c) (pre_lunch_remaining
    c) (pre_lunch_was_running c) (reminded_this_focus c) (remind_at c)
    (total_open_sec c) (paused_sec c) (microbreak_sec c) (focus_work_sec c)
    (log c) (_segment_kind c) (_segment_start c).

Definition set_pre_lunch_mode (v : Mode) (c : ClockState) : ClockState :=
  mkClockState (focus_min c) (break_min c) (micro_sec c) (session_goal c)
    (screen_breaks_enabled c) (profile c) (work_elapsed_sec c)
    (last_export_date c) (flushed_log_idx c) (mode c) (remaining c)
    (completed_units c) (microbreak_active c) (microbreak_remaining c)
    (after_micro c) (finished c) (running c) v (pre_lunch_remaining c)
    (pre_lunch_was_running c) (reminded_this_focus c) (remind_at c)
    (total_open_sec c) (paused_sec c) (microbreak_sec c) (focus_work_sec c)
    (log c) (_segment_kind c) (_segment_start c).

Definition set_pre_lunch_remaining (v : Z) (c : ClockState) : ClockState :=
  mkClockState (focus_min c) (break_min c) (micro_sec c) (session_goal c)
    (screen_breaks_enabled c) (profile c) (work_elapsed_sec c)
    (last_export_date c) (flushed_log_idx c) (mode c) (remaining c)
    (completed_units c) (microbreak_active c) (microbreak_remaining c)
    (after_micro c) (finished c) (running c) (pre_lunch_mode c) v
    (pre_lunch_was_running c) (reminded_this_focus c) (remind_at c)
    (total_open_sec c) (paused_sec c) (microbreak_sec c) (focus_work_sec c)
    (log c) (_segment_kind c) (_segment_start c).

Definition set_pre_lunch_was_running (v : bool) (c : ClockState) : ClockState :=
  mkClockState (focus_min c) (break_min c) (micro_sec c) (session_goal c)
    (screen_breaks_enabled c) (profile c) (work_elapsed_sec c)
    (last_export_date c) (flushed_log_idx c) (mode c) (remaining c)
    (completed_units c) (microbreak_active c) (microbreak_remaining c)
    (after_micro c) (finished c) (running c) (pre_lunch_mode c)
    (pre_lunch_remaining c) v (reminded_this_focus c) (remind_at c)
    (total_open_sec c) (paused_sec c) (microbreak_sec c) (focus_work_sec c)
    (log c) (_segment_kind c) (_segment_start c).

Definition set_reminded_this_focus (v : gset Z) (c : ClockState) : ClockState :=
  mkClockState (focus_min c) (break_min c) (micro_sec c) (session_goal c)
    (screen_breaks_enabled c) (profile c) (work_elapsed_sec c)
    (last_export_date c) (flushed_log_idx c) (mode c) (remaining c)
    (completed_units c) (microbreak_active c) (microbreak_remaining c)
    (after_micro c) (finished c) (running c) (pre_lunch_mode c)
    (pre_lunch_remaining c) (pre_lunch_was_running c) v (remind_at c)
    (total_open_sec c) (paused_sec c) (microbreak_sec c) (focus_work_sec c)
    (log c) (_segment_kind c) (_segment_start c).

Definition set_total_open_sec (v : Z) (c : ClockState) : ClockState :=
  mkClockState (focus_min c) (break_min c) (micro_sec c) (session_goal c)
    (screen_breaks_enabled c) (profile c) (work_elapsed_sec c)
    (last_export_date c) (flushed_log_idx c) (mode c) (remaining c)
    (completed_units c) (microbreak_active c) (microbreak_remaining c)
    (after_micro c) (finished c) (running c) (pre_lunch_mode c)
    (pre_lunch_remaining c) (pre_lunch_was_running c) (reminded_this_focus
    c) (remind_at c) v (paused_sec c) (microbreak_sec c) (focus_work_sec c)
    (log c) (_segment_kind c) (_segment_start c).

Definition set_paused_sec (v : Z) (c : ClockState) : ClockState :=
  mkClockState (focus_min c) (break_min c) (micro_sec c) (session_goal c)
    (screen_breaks_enabled c) (profile c) (work_elapsed_sec c)
    (last_export_date c) (flushed_log_idx c) (mode c) (remaining c)
    (completed_units c) (microbreak_active c) (microbreak_remaining c)
    (after_micro c) (finished c) (running c) (pre_lunch_mode c)
    (pre_lunch_remaining c) (pre_lunch_was_running c) (reminded_this_focus
    c) (remind_at c) (total_open_sec c) v (microbreak_sec c) (focus_work_sec
    c) (log c) (_segment_kind c) (_segment_start c).

Definition set_microbreak_sec (v : Z) (c : ClockState) : ClockState :=
  mkClockState (focus_min c) (break_min c) (micro_sec c) (session_goal c)
    (screen_breaks_enabled c) (profile c) (work_elapsed_sec c)
    (last_export_date c) (flushed_log_idx c) (mode c) (remaining c)
    (completed_units c) (microbreak_active c) (microbreak_remaining c)
    (after_micro c) (finished c) (running c) (pre_lunch_mode c)
    (pre_lunch_remaining c) (pre_lunch_was_running c) (reminded_this_focus
    c) (remind_at c) (total_open_sec c) (paused_sec c) v (focus_work_sec c)
    (log c) (_segment_kind c) (_segment_start c).

Definition set_focus_work_sec (v : Z) (c : ClockState) : ClockState :=
  mkClockState (focus_min c) (break_min c) (micro_sec c) (session_goal c)
    (screen_breaks_enabled c) (profile c) (work_elapsed_sec c)
    (last_export_date c) (flushed_log_idx c) (mode c) (remaining c)
    (completed_units c) (microbreak_active c) (microbreak_remaining c)
    (after_micro c) (finished c) (running c) (pre_lunch_mode c)
    (pre_lunch_remaining c) (pre_lunch_was_running c) (reminded_this_focus
    c) (remind_at c) (total_open_sec c) (paused_sec c) (microbreak_sec c) v
    (log c) (_segment_kind c) (_segment_start c).

Definition set_log (v : list LogEntry) (c : ClockState) : ClockState :=
  mkClockState (focus_min c) (break_min c) (micro_sec c) (session_goal c)
    (screen_breaks_enabled c) (profile c) (work_elapsed_sec c)
    (last_export_date c) (flushed_log_idx c) (mode c) (remaining c)
    (completed_units c) (microbreak_active c) (microbreak_remaining c)
    (after_micro c) (finished c) (running c) (pre_lunch_mode c)
    (pre_lunch_remaining c) (pre_lunch_was_running c) (reminded_this_focus
    c) (remind_at c) (total_open_sec c) (paused_sec c) (microbreak_sec c)
    (focus_work_sec c) v (_segment_kind c) (_segment_start c).

Definition set_segment_kind (v : Kind) (c : ClockState) : ClockState :=
  mkClockState (focus_min c) (break_min c) (micro_sec c) (session_goal c)
    (screen_breaks_enabled c) (profile c) (work_elapsed_sec c)
    (last_export_date c) (flushed_log_idx c) (mode c) (remaining c)
    (completed_units c) (microbreak_active c) (microbreak_remaining c)
    (after_micro c) (finished c) (running c) (pre_lunch_mode c)
    (pre_lunch_remaining c) (pre_lunch_was_running c) (reminded_this_focus
    c) (remind_at c) (total_open_sec c) (paused_sec c) (microbreak_sec c)
    (focus_work_sec c) (log c) v (_segment_start c).

Definition set_segment_start (v : option Z) (c : ClockState) : ClockState :=
  mkClockState (focus_min c) (break_min c) (micro_sec c) (session_goal c)
    (screen_breaks_enabled c) (profile c) (work_elapsed_sec c)
    (last_export_date c) (flushed_log_idx c) (mode c) (remaining c)
    (completed_units c) (microbreak_active c) (microbreak_remaining c)
    (after_micro c) (finished c) (running c) (pre_lunch_mode c)
    (pre_lunch_remaining c) (pre_lunch_was_running c) (reminded_this_focus
    c) (remind_at c) (total_open_sec c) (paused_sec c) (microbreak_sec c)
    (focus_work_sec c) (log c) (_segment_kind c) v.

(** Constructor defaults of the dataclass. *)
Definition default_state : ClockState :=
  {| focus_min := 50; break_min := 10; micro_sec := 60; session_goal := 7;
     screen_breaks_enabled := true;
     profile := study; work_elapsed_sec := 0;
     last_export_date := EmptyString; flushed_log_idx := 0;
     mode := focus; remaining := 50 * 60; completed_units := 0;
     microbreak_active := false; microbreak_remaining := 0;
     after_micro := no_after; finished := false; running := false;
     pre_lunch_mode := focus; pre_lunch_remaining := 0;
     pre_lunch_was_running := false;
     reminded_this_focus := ∅; remind_at := DEFAULT_REMIND_AT;
     total_open_sec := 0; paused_sec := 0; microbreak_sec := 0;
     focus_work_sec := 0;
     log := []; _segment_kind := NO_KIND; _segment_start := None |}.

(** ** The engine and its environment *)

(** One invocation of a callback given to the constructor. *)
Inductive Callback : Type := on_change_call | beep_call.

(** A [FocusClockLogic] object together with what it has done to the outside:
    [s] is [self.s]; [clock_reads] counts the readings of the wall clock taken
    so far; [calls] lists the callback invocations, oldest first. *)
Record FocusClockLogic : Type := mkLogic {
  s : ClockState;
  clock_reads : nat;
  calls : list Callback
}.

(** A method without result: a transformer of the engine. *)
Definition Action : Type := FocusClockLogic -> FocusClockLogic.

Declare Scope action_scope.
Delimit Scope action_scope with act.
Bind Scope action_scope with Action.

(** [return] / [pass]. *)
Definition nop : Action := fun e => e.

Definition seq (a b : Action) : Action := fun e => b (a e).

(** Branch on a condition over [self.s]. *)
Definition branch (c : ClockState -> bool) (a b : Action) : Action :=
  fun e => if c (s e) then a e else b e.

(** An assignment to fields of [self.s]. *)
Definition upd (f : ClockState -> ClockState) : Action :=
  fun e => mkLogic (f (s e)) (clock_reads e) (calls e).

Notation "a ;; b" := (seq a b)
  (at level 100, b at level 200, right associativity) : action_scope.
Notation "'If' c 'Then' a 'Else' b" := (branch c a b)
  (at level 10, c at level 200, a at level 200, b at level 200)
  : action_scope.

Local Open Scope action_scope.

Definition _on_change : Action :=
  fun e => mkLogic (s e) (clock_reads e) (calls e ++ [on_change_call]).

Definition _beep : Action :=
  fun e => mkLogic (s e) (clock_reads e) (calls e ++ [beep_call]).

Section Engine.

(** The wall clock: [wall n] is what the [n]-th call of [datetime.now()]
    returns. *)
Variable wall : nat -> Z.

Definition _now (e : FocusClockLogic) : Z * FocusClockLogic :=
  (wall (clock_reads e), mkLogic (s e) (S (clock_reads e)) (calls e)).

(** *** Segment classification and logging *)

Definition _current_kind (c : ClockState) : Kind :=
  match profile c with
  | worklog => if running c then WORK else PAUSE
  | study =>
      if microbreak_active c then SCREEN_BREAK
      else if negb (running c) then PAUSED
      else match mode c with
           | focus => FOCUS
           | break => BREAK
           | lunch => LUNCH
           end
  end.

(** [end or _now()]: the clock is read only when no instant is passed. *)
Definition or_now (t : option Z) (e : FocusClockLogic) : Z * FocusClockLogic :=
  match t with
  | Some t => (t, e)
  | None => _now e
  end.

Definition _close_segment (end_ : option Z) : Action := fun e =>
  match _segment_start (s e) with
  | None => e
  | Some segment_start =>
      if bool_decide (_segment_kind (s e) = NO_KIND) then e
      else
        let '(end_, e) := or_now end_ e in
        (upd (fun c => set_log
                (log c ++ [mkLogEntry (_segment_kind c) segment_start end_]) c) ;;
         upd (set_segment_kind NO_KIND) ;;
         upd (set_segment_start None)) e
  end.

Definition _open_segment (kind : Kind) (start : option Z) : Action := fun e =>
  let e := upd (set_segment_kind kind) e in
  let '(start, e) := or_now start e in
  upd (set_segment_start (Some start)) e.

Definition _roll_segment_if_needed : Action := fun e =>
  let '(now, e) := _now e in
  let new_kind := _current_kind (s e) in
  match _segment_start (s e) with
  | None => _open_segment new_kind (Some now) e
  | Some _ =>
      if negb (bool_decide (new_kind = _segment_kind (s e)))
      then (_close_segment (Some now) ;; _open_segment new_kind (Some now)) e
      else e
  end.

(** *** Derived value *)

Definition current_unit (c : ClockState) : Z :=
  if finished c then session_goal c
  else Z.min (completed_units c + 1) (session_goal c).

(** *** State transitions *)

Definition mark_finished : Action :=
  If (fun c => bool_decide (profile c = worklog)) Then nop
  Else (upd (set_finished true) ;;
        upd (set_running false) ;;
        upd (set_microbreak_active false) ;;
        upd (set_microbreak_remaining 0) ;;
        upd (set_after_micro no_after)).

Definition switch_to_break : Action :=
  upd (set_mode break) ;;
  upd (fun c => set_remaining (break_min c * 60) c) ;;
  _beep ;;
  _roll_segment_if_needed.

Definition switch_to_focus : Action :=
  upd (set_mode focus) ;;
  upd (fun c => set_remaining (focus_min c * 60) c) ;;
  upd (set_reminded_this_focus ∅) ;;
  _beep ;;
  _roll_segment_if_needed.

Definition start_lunch_break : Action :=
  If (fun c => finished c) Then nop
  Else (upd (fun c => set_pre_lunch_mode (mode c) c) ;;
        upd (fun c => set_pre_lunch_remaining (remaining c) c) ;;
        upd (fun c => set_pre_lunch_was_running (running c) c) ;;
        upd (set_microbreak_active false) ;;
        upd (set_microbreak_remaining 0) ;;
        upd (set_after_micro no_after) ;;
        upd (set_mode lunch) ;;
        upd (set_remaining (60 * 60)) ;;
        upd (set_running true) ;;
        _on_change ;;
        _roll_segment_if_needed).

(** *** Microbreak *)

Definition end_microbreak : Action :=
  _beep ;;
  upd (set_microbreak_active false) ;;
  upd (set_microbreak_remaining 0) ;;
  (fun e => match after_micro (s e) with
            | resume_focus => nop e
            | go_break => switch_to_break e
            | go_focus => switch_to_focus e
            | no_after => nop e
            end) ;;
  upd (set_after_micro no_after) ;;
  _on_change ;;
  _roll_segment_if_needed.

Definition start_microbreak (after : AfterMicro) : Action :=
  If (fun c => (micro_sec c <=? 0) || negb (screen_breaks_enabled c))
  Then (upd (set_after_micro after) ;;
        end_microbreak)
  Else (upd (set_microbreak_active true) ;;
        _on_change ;;
        upd (fun c => set_microbreak_remaining (micro_sec c) c) ;;
        upd (set_after_micro after) ;;
        _beep ;;
        _on_change ;;
        _roll_segment_if_needed).

(** *** Completion *)

Definition finish_focus_unit (use_microbreak_before_break : bool) : Action :=
  upd (fun c => set_completed_units (completed_units c + 1) c) ;;
  If (fun c => completed_units c >=? session_goal c)
  Then (mark_finished ;;
        _on_change)
  Else (if use_microbreak_before_break
        then start_microbreak go_break
        else (switch_to_break ;;
              _on_change)).

(** *** Controls *)

Definition start : Action :=
  If (fun c => finished c) Then nop
  Else If (fun c => negb (running c))
  Then (upd (set_running true) ;;
        _roll_segment_if_needed ;;
        _on_change)
  Else nop.

Definition pause : Action :=
  upd (set_running false) ;;
  _roll_segment_if_needed ;;
  _on_change.

Definition toggle_play_pause : Action :=
  If (fun c => running c) Then pause Else start.

Definition reset_all : Action :=
  If (fun c => bool_decide (profile c = worklog))
  Then (upd (set_running false) ;;
        upd (set_work_elapsed_sec 0) ;;
        upd (set_log []) ;;
        upd (set_segment_kind NO_KIND) ;;
        upd (set_segment_start None) ;;
        _on_change)
  Else (upd (set_running false) ;;
        upd (set_mode focus) ;;
        upd (fun c => set_remaining (focus_min c * 60) c) ;;
        upd (set_completed_units 0) ;;
        upd (set_finished false) ;;
        upd (set_microbreak_active false) ;;
        upd (set_microbreak_remaining 0) ;;
        upd (set_after_micro no_after) ;;
        upd (set_reminded_this_focus ∅) ;;
        upd (set_total_open_sec 0) ;;
        upd (set_paused_sec 0) ;;
        upd (set_microbreak_sec 0) ;;
        upd (set_focus_work_sec 0) ;;
        upd (set_log []) ;;
        upd (set_segment_kind NO_KIND) ;;
        upd (set_segment_start None) ;;
        _on_change ;;
        _on_change).

Definition skip_phase : Action :=
  If (fun c => bool_decide (profile c = worklog)) Then nop
  Else If (fun c => finished c) Then nop
  Else If (fun c => microbreak_active c) Then end_microbreak
  Else If (fun c => bool_decide (mode c = focus))
  Then finish_focus_unit false
  Else (switch_to_focus ;;
        _on_change).

Definition THRESHOLD_SEC : Z := 10.

(** The local helper of [rewind_phase]. *)
Definition elapsed_in_phase (c : ClockState) (total_sec : Z) : Z :=
  Z.max 0 (total_sec - remaining c).

(** Restoring the phase that lunch interrupted (written out twice in the
    source: in [rewind_phase] and in [on_tick]). *)
Definition restore_pre_lunch : Action :=
  upd (fun c => set_mode (pre_lunch_mode c) c) ;;
  upd (fun c => set_remaining (pre_lunch_remaining c) c) ;;
  upd (fun c => set_running (pre_lunch_was_running c) c) ;;
  _on_change.

Definition rewind_phase : Action :=
  If (fun c => bool_decide (profile c = worklog)) Then nop
  Else If (fun c => finished c) Then nop
  Else If (fun c => microbreak_active c)
  Then (upd (set_microbreak_active false) ;;
        upd (set_microbreak_remaining 0) ;;
        upd (set_after_micro no_after) ;;
        _on_change)
  Else fun e =>
    match mode (s e) with
    | focus =>
        let total := focus_min (s e) * 60 in
        let elapsed := elapsed_in_phase (s e) total in
        if elapsed >? THRESHOLD_SEC
        then (upd (set_remaining total) ;; _on_change) e
        else if completed_units (s e) =? 0
        then (upd (set_remaining total) ;; _on_change) e
        else (upd (fun c => set_completed_units (completed_units c - 1) c) ;;
              switch_to_break ;;
              _on_change) e
    | break =>
        let total := break_min (s e) * 60 in
        let elapsed := elapsed_in_phase (s e) total in
        if elapsed >? THRESHOLD_SEC
        then (upd (set_remaining total) ;; _on_change) e
        else (switch_to_focus ;; _on_change) e
    | lunch =>
        let total := 60 * 60 in
        let elapsed := elapsed_in_phase (s e) total in
        if elapsed >? THRESHOLD_SEC
        then (upd (set_remaining total) ;; _on_change) e
        else restore_pre_lunch e
    end.

(** *** Tick handlers *)

(** The tail of [on_tick] from the comment "Phase end without reminder
    branch" on; the reminder branch falls through to it when the threshold
    that fired is neither of 2400, 1200 and 0. *)
Definition on_tick_phase_end : Action :=
  If (fun c => remaining c <=? 0)
  Then (If (fun c => bool_decide (mode c = focus))
        Then (finish_focus_unit true ;;
              _on_change)
        Else If (fun c => bool_decide (mode c = lunch))
        Then restore_pre_lunch
        Else (switch_to_focus ;;
              _on_change))
  Else _on_change.

Definition on_tick : Action :=
  If (fun c => finished c
               || (negb (running c) && bool_decide (profile c = study)))
  Then nop
  Else (_roll_segment_if_needed ;;
  If (fun c => bool_decide (profile c = worklog))
  Then (If (fun c => running c)
        Then (upd (fun c => set_total_open_sec (total_open_sec c + 1) c) ;;
              upd (fun c => set_focus_work_sec (focus_work_sec c + 1) c) ;;
              upd (fun c => set_work_elapsed_sec (work_elapsed_sec c + 1) c) ;;
              _on_change)
        Else nop)
  Else (upd (fun c => set_total_open_sec (total_open_sec c + 1) c) ;;
  If (fun c => microbreak_active c)
  Then (upd (fun c => set_microbreak_sec (microbreak_sec c + 1) c) ;;
        upd (fun c => set_microbreak_remaining (microbreak_remaining c - 1) c) ;;
        If (fun c => microbreak_remaining c <=? 0)
        Then end_microbreak
        Else _on_change)
  Else ((If (fun c => bool_decide (mode c = focus))
         Then upd (fun c => set_focus_work_sec (focus_work_sec c + 1) c)
         Else nop) ;;
  upd (fun c => set_remaining (remaining c - 1) c) ;;
  If (fun c => bool_decide (mode c = focus)
               && bool_decide (remaining c ∈ remind_at c)
               && negb (bool_decide (remaining c ∈ reminded_this_focus c)))
  Then (upd (fun c => set_reminded_this_focus
                        ({[ remaining c ]} ∪ reminded_this_focus c) c) ;;
        If (fun c => (remaining c =? 40 * 60) || (remaining c =? 20 * 60))
        Then start_microbreak resume_focus
        Else If (fun c => remaining c =? 0)
        Then finish_focus_unit true
        Else on_tick_phase_end)
  Else on_tick_phase_end))).

Definition on_pause_count_tick : Action :=
  If (fun c => negb (running c) && negb (microbreak_active c)
               && negb (finished c))
  Then upd (fun c => set_paused_sec (paused_sec c + 1) c)
  Else nop.

(** *** Applying settings *)

Definition apply_settings
    (focus_min' break_min' micro_sec' goal start_unit : Z)
    (screen_breaks_enabled' : bool) : Action :=
  upd (set_focus_min focus_min') ;;
  upd (set_break_min break_min') ;;
  upd (set_micro_sec micro_sec') ;;
  upd (set_session_goal goal) ;;
  upd (set_screen_breaks_enabled screen_breaks_enabled') ;;
  (fun e =>
     let start_unit := Z.max 1 (Z.min start_unit (session_goal (s e))) in
     upd (set_completed_units (start_unit - 1)) e) ;;
  upd (set_finished false) ;;
  (If (fun c => negb (running c) && negb (microbreak_active c))
   Then upd (fun c => set_remaining
                        (if bool_decide (mode c = focus)
                         then focus_min c * 60 else break_min c * 60) c)
   Else nop) ;;
  _on_change.

(** *** The once-per-second driver *)

(** [n] consecutive timeouts of the tick timer. *)
Definition ticks (n : nat) : Action := Nat.iter n on_tick.

(** The engine is counting down a lunch that was started from [e0]: study
    profile, running, no overlay, [r] seconds left, and the snapshot of [e0]
    in the pre-lunch fields. *)
Definition in_lunch (e0 e : FocusClockLogic) (r : Z) : Prop :=
  profile (s e) = study /\ finished (s e) = false /\ running (s e) = true /\
  microbreak_active (s e) = false /\ mode (s e) = lunch /\
  remaining (s e) = r /\
  completed_units (s e) = completed_units (s e0) /\
  pre_lunch_mode (s e) = mode (s e0) /\
  pre_lunch_remaining (s e) = remaining (s e0) /\
  pre_lunch_was_running (s e) = running (s e0).

(** *** Public operations and reachable states *)

(** The calls the window makes on the engine. *)
Inductive Op : Type :=
  | OnTick
  | OnPauseTick
  | Start
  | Pause
  | TogglePlayPause
  | SkipPhase
  | RewindPhase
  | ResetAll
  | ApplySettings (focus_min' break_min' micro_sec' goal start_unit : Z)
      (screen_breaks_enabled' : bool)
  | StartLunchBreak.

Definition perform (o : Op) : Action :=
  match o with
  | OnTick => on_tick
  | OnPauseTick => on_pause_count_tick
  | Start => start
  | Pause => pause
  | TogglePlayPause => toggle_play_pause
  | SkipPhase => skip_phase
  | RewindPhase => rewind_phase
  | ResetAll => reset_all
  | ApplySettings fm bm ms goal su sbe => apply_settings fm bm ms goal su sbe
  | StartLunchBreak => start_lunch_break
  end.

(** The operations of [ops] one after the other, first to last. *)
Definition run (ops : list Op) (e : FocusClockLogic) : FocusClockLogic :=
  fold_left (fun e o => perform o e) ops e.

(** A fresh engine on the default state. *)
Definition initial : FocusClockLogic := mkLogic default_state 0 [].

(** The settings dialog offers goals from 1 on. *)
Definition goal_positive (o : Op) : bool :=
  match o with
  | ApplySettings _ _ _ goal _ _ => 1 <=? goal
  | _ => true
  end.

(** *** Invariants *)

(** The unit counter stays within the goal, and a finished session does not
    run. *)
Definition units_in_range (c : ClockState) : Prop :=
  0 <= completed_units c <= session_goal c /\
  (finished c = true -> running c = false).

(** What makes [units_in_range] inductive: the study profile, a positive
    goal, and a unit still missing unless the session is finished. *)
Definition phase_ok (c : ClockState) : Prop :=
  profile c = study /\ 1 <= session_goal c /\
  0 <= completed_units c <= session_goal c /\
  (finished c = true /\ running c = false \/
   finished c = false /\ completed_units c < session_goal c).

Definition wall_monotone : Prop := forall i j : nat, (i <= j)%nat -> wall i <= wall j.

(** Consecutive entries meet: each ends where the next one starts. *)
Definition gap_free (l : list LogEntry) : Prop :=
  forall (i : nat) (e1 e2 : LogEntry),
    l !! i = Some e1 -> l !! S i = Some e2 -> end_at e1 = start_at e2.

Definition entries_ordered (l : list LogEntry) : Prop :=
  forall x : LogEntry, x ∈ l -> start_at x <= end_at x.

(** The log [l] and the cursor [(k, t)] after [n] readings of the clock:
    the log is gap free; an open segment has a kind, starts where the last
    closed entry ended and, on a monotone clock, not after any later reading;
    with no segment open the log is empty. *)
Definition seg_ok (l : list LogEntry) (k : Kind) (t : option Z) (n : nat)
    : Prop :=
  gap_free l /\
  (wall_monotone -> entries_ordered l) /\
  match t with
  | Some t0 =>
      k <> NO_KIND /\
      (wall_monotone -> forall m : nat, (n <= m)%nat -> t0 <= wall m) /\
      (forall x : LogEntry, last l = Some x -> end_at x = t0)
  | None => l = []
  end.

Definition seg_inv (e : FocusClockLogic) : Prop :=
  seg_ok (log (s e)) (_segment_kind (s e)) (_segment_start (s e))
    (clock_reads e).

(** *** Notions used in the statements *)

(** The session goal has just been reached from [e]: the counter equals the
    goal, the session is finished and stopped, the microbreak overlay is
    clear and the mode is the one of [e]. *)
Definition goal_reached (e e' : FocusClockLogic) : Prop :=
  completed_units (s e') = session_goal (s e) /\
  session_goal (s e') = session_goal (s e) /\
  finished (s e') = true /\ running (s e') = false /\
  microbreak_active (s e') = false /\ microbreak_remaining (s e') = 0 /\
  after_micro (s e') = no_after /\
  mode (s e') = mode (s e).

(** What a segment roll may touch: the log and the open-segment cursor. *)
Definition with_segment (l : list LogEntry) (k : Kind) (t : option Z)
    (c : ClockState) : ClockState :=
  set_segment_start t (set_segment_kind k (set_log l c)).

(** [wp a Q e]: the postcondition [Q] holds after running [a] from [e]. *)
Definition wp (a : Action) (Q : FocusClockLogic -> Prop)
    (e : FocusClockLogic) : Prop := Q (a e).

(** *** Sample inputs *)

(** A clock whose [n]-th reading is [n]. *)
Definition wall_seconds : nat -> Z := Z.of_nat.

(** One second before the end of the seventh and last focus unit. *)
Definition last_unit_engine : FocusClockLogic :=
  mkLogic (set_running true
             (set_remaining 1 (set_completed_units 6 default_state))) 0 [].

(** Five seconds into the fourth focus unit, paused. *)
Definition fourth_unit_engine : FocusClockLogic :=
  mkLogic (set_remaining (50 * 60 - 5)
             (set_completed_units 3 default_state)) 0 [].

(** Inside the microbreak of the 2400 second reminder. *)
Definition in_microbreak_engine : FocusClockLogic :=
  mkLogic (set_running true
             (set_after_micro resume_focus
                (set_microbreak_remaining 60
                   (set_microbreak_active true
                      (set_reminded_this_focus {[ 2400 ]}
                         (set_remaining 2400 default_state)))))) 0 [].

(** Screen breaks switched off. *)
Definition no_screen_breaks_engine : FocusClockLogic :=
  mkLogic (set_screen_breaks_enabled false default_state) 0 [].

(** Running in focus, one second before the 2400 second threshold, which has
    fired already. *)
Definition reminded_engine : FocusClockLogic :=
  mkLogic (set_running true
             (set_remaining 2401
                (set_reminded_this_focus {[ 2400 ]} default_state))) 0 [].

Definition sample_session : list Op :=
  [ Start; OnTick; Pause; ApplySettings 25 5 0 4 2 true; Start; SkipPhase;
    OnTick; StartLunchBreak; OnTick; RewindPhase; SkipPhase; SkipPhase;
    SkipPhase; OnPauseTick ].

(** A goal of zero units, then one unit skipped. *)
Definition zero_goal_session : list Op :=
  [ ApplySettings 50 10 60 0 1 true; Start; SkipPhase ].

(** *** Further invariants of reachable states *)

(** The microbreak overlay is either absent, with its countdown at zero and
    no continuation pending, or present over an unfinished focus phase, with
    at least one second left and a continuation that resumes focus or goes to
    the break. *)
Definition overlay_consistent (c : ClockState) : Prop :=
  microbreak_active c = false /\ microbreak_remaining c = 0 /\
  after_micro c = no_after
  \/
  microbreak_active c = true /\ 1 <= microbreak_remaining c /\
  (after_micro c = resume_focus \/ after_micro c = go_break) /\
  mode c = focus /\ finished c = false.

(** The reminder thresholds are the default ones and only they can have
    fired. *)
Definition reminders_consistent (c : ClockState) : Prop :=
  remind_at c = DEFAULT_REMIND_AT /\ reminded_this_focus c ⊆ remind_at c.

(** The statistics are counts, and the seconds of screen break and of focus
    work are among the seconds the clock was running. *)
Definition stats_consistent (c : ClockState) : Prop :=
  0 <= microbreak_sec c /\ 0 <= focus_work_sec c /\ 0 <= paused_sec c /\
  microbreak_sec c + focus_work_sec c <= total_open_sec c.

(** A finished session has exactly reached its goal. *)
Definition finished_at_goal (c : ClockState) : Prop :=
  finished c = false \/ completed_units c = session_goal c.

(** Neighbouring entries of the log differ in kind. *)
Definition alternating (l : list LogEntry) : Prop :=
  forall (i : nat) (e1 e2 : LogEntry),
    l !! i = Some e1 -> l !! S i = Some e2 -> kind e1 <> kind e2.

(** The kinds in the log [l] and of the cursor [(k, t)]: every closed entry
    has a kind, neighbours differ, and the open segment has a kind other than
    that of the entry closed last. *)
Definition kinds_ok (l : list LogEntry) (k : Kind) (t : option Z) : Prop :=
  (forall x : LogEntry, x ∈ l -> kind x <> NO_KIND) /\
  alternating l /\
  match t with
  | Some _ =>
      k <> NO_KIND /\ (forall x : LogEntry, last l = Some x -> kind x <> k)
  | None => l = []
  end.


(** What the end of a microbreak leaves, by continuation. *)
Definition after_microbreak (e e' : FocusClockLogic) : Prop :=
  microbreak_active (s e') = false /\ microbreak_remaining (s e') = 0 /\
  after_micro (s e') = no_after /\
  completed_units (s e') = completed_units (s e) /\
  match after_micro (s e) with
  | resume_focus | no_after =>
      mode (s e') = mode (s e) /\ remaining (s e') = remaining (s e)
  | go_break => mode (s e') = break /\ remaining (s e') = break_min (s e) * 60
  | go_focus => mode (s e') = focus /\ remaining (s e') = focus_min (s e) * 60
  end.

(** *** Focus progress *)

(** [calc_focus_progress], its three integer results [(done, left, total)];
    the fourth result, the percentage, is a rounded floating-point quotient
    and is left out. *)
Definition calc_focus_progress (c : ClockState) : Z * Z * Z :=
  let focus_block := focus_min c * 60 in
  let total := session_goal c * focus_block in
  let done := completed_units c * focus_block in
  let done :=
    if bool_decide (mode c = focus) && negb (finished c)
    then done + (focus_block - remaining c)
    else done in
  let done := Z.min (Z.max done 0) total in
  let left := total - done in
  (done, left, total).

(** *** The profile switch of the window *)

Definition set_profile (v : Profile) (c : ClockState) : ClockState :=
  mkClockState (focus_min c) (break_min c) (micro_sec c) (session_goal c)
    (screen_breaks_enabled c) v (work_elapsed_sec c)
    (last_export_date c) (flushed_log_idx c) (mode c) (remaining c)
    (completed_units c) (microbreak_active c) (microbreak_remaining c)
    (after_micro c) (finished c) (running c) (pre_lunch_mode c)
    (pre_lunch_remaining c) (pre_lunch_was_running c)
    (reminded_this_focus c) (remind_at c) (total_open_sec c) (paused_sec c)
    (microbreak_sec c) (focus_work_sec c) (log c) (_segment_kind c)
    (_segment_start c).

(** [FocusClockWindow.toggle_profile] of [window.py], as far as it acts on
    the engine: it closes the open segment, rewrites the state, and calls
    [update_ui], which is the function the engine knows as [_on_change].
    (Stopping the tick timer and enabling buttons are outside the engine.) *)
Definition toggle_profile : Action :=
  _close_segment None ;;
  (If (fun c => bool_decide (profile c = study))
   Then (upd (set_profile worklog) ;;
         upd (set_finished false) ;;
         upd (set_microbreak_active false) ;;
         upd (set_microbreak_remaining 0) ;;
         upd (set_after_micro no_after) ;;
         upd (set_work_elapsed_sec 0) ;;
         upd (set_running false))
   Else (upd (set_profile study) ;;
         upd (set_mode focus) ;;
         upd (fun c => set_remaining (focus_min c * 60) c) ;;
         upd (set_running false))) ;;
  _on_change.

(** *** Further sample inputs *)

(** Three seconds into the break after the second unit. *)
Definition in_break_engine : FocusClockLogic :=
  mkLogic (set_running true
             (set_remaining (10 * 60 - 3)
                (set_mode break (set_completed_units 2 default_state)))) 0 [].

(** A session that has reached its goal. *)
Definition finished_engine : FocusClockLogic :=
  mkLogic (set_finished true
             (set_remaining 0 (set_completed_units 7 default_state))) 0 [].

(** One second before the end of the third focus unit, running. *)
Definition unit_ending_engine : FocusClockLogic :=
  mkLogic (set_running true
             (set_remaining 1
                (set_reminded_this_focus {[ 2400; 1200 ]}
                   (set_completed_units 2 default_state)))) 0 [].

(** Running in focus, one second before the 2400 second threshold, which has
    not fired yet. *)
Definition before_reminder_engine : FocusClockLogic :=
  mkLogic (set_running true (set_remaining 2401 default_state)) 0 [].

(** A running stopwatch in the worklog profile. *)
Definition worklog_engine : FocusClockLogic :=
  mkLogic (set_running true (set_profile worklog default_state)) 0 [].

(** A goal of two units, reached by skipping. *)
Definition short_session : list Op :=
  [ ApplySettings 50 10 60 2 1 true; Start; SkipPhase; SkipPhase; SkipPhase ].


(** A clock that is set back between readings. *)
Definition wall_back : nat -> Z := fun n => - Z.of_nat n.

(** ** Proof infrastructure *)

(** Reduce field reads and writes on explicit records, nothing else. *)
Ltac fields :=
  cbn beta iota zeta delta
    [
      set_focus_min set_break_min set_micro_sec set_session_goal
      set_screen_breaks_enabled set_work_elapsed_sec set_mode
      set_remaining set_completed_units set_microbreak_active
      set_microbreak_remaining set_after_micro set_finished set_running
      set_pre_lunch_mode set_pre_lunch_remaining
      set_pre_lunch_was_running set_reminded_this_focus
      set_total_open_sec set_paused_sec set_microbreak_sec
      set_focus_work_sec set_log set_segment_kind set_segment_start
      focus_min break_min micro_sec session_goal screen_breaks_enabled
      profile work_elapsed_sec last_export_date flushed_log_idx mode
      remaining completed_units microbreak_active microbreak_remaining
      after_micro finished running pre_lunch_mode pre_lunch_remaining
      pre_lunch_was_running reminded_this_focus remind_at total_open_sec
      paused_sec microbreak_sec focus_work_sec log _segment_kind
      _segment_start s clock_reads calls with_segment elapsed_in_phase
      THRESHOLD_SEC
    ].

(** Full normalisation of field reads and writes; for explicit records only. *)
Ltac record_nf :=
  cbv beta iota zeta delta
    [
      set_focus_min set_break_min set_micro_sec set_session_goal
      set_screen_breaks_enabled set_work_elapsed_sec set_mode
      set_remaining set_completed_units set_microbreak_active
      set_microbreak_remaining set_after_micro set_finished set_running
      set_pre_lunch_mode set_pre_lunch_remaining
      set_pre_lunch_was_running set_reminded_this_focus
      set_total_open_sec set_paused_sec set_microbreak_sec
      set_focus_work_sec set_log set_segment_kind set_segment_start
      focus_min break_min micro_sec session_goal screen_breaks_enabled
      profile work_elapsed_sec last_export_date flushed_log_idx mode
      remaining completed_units microbreak_active microbreak_remaining
      after_micro finished running pre_lunch_mode pre_lunch_remaining
      pre_lunch_was_running reminded_this_focus remind_at total_open_sec
      paused_sec microbreak_sec focus_work_sec log _segment_kind
      _segment_start s clock_reads calls with_segment elapsed_in_phase
      THRESHOLD_SEC
    ].

Lemma wp_intro a Q e : wp a Q e -> Q (a e).
Proof. exact id. Qed.

Lemma wp_unfold a Q e : Q (a e) -> wp a Q e.
Proof. exact id. Qed.

Lemma wp_arg a b Q e : wp a (wp b Q) e -> wp b Q (a e).
Proof. exact id. Qed.

Lemma wp_seq a b Q e : wp a (wp b Q) e -> wp (a ;; b) Q e.
Proof. exact id. Qed.

Lemma wp_nop Q e : Q e -> wp nop Q e.
Proof. exact id. Qed.

Lemma wp_upd f Q c n tr :
  Q (mkLogic (f c) n tr) -> wp (upd f) Q (mkLogic c n tr).
Proof. exact id. Qed.

Lemma wp_on_change Q c n tr :
  Q (mkLogic c n (tr ++ [on_change_call])) -> wp _on_change Q (mkLogic c n tr).
Proof. exact id. Qed.

Lemma wp_beep Q c n tr :
  Q (mkLogic c n (tr ++ [beep_call])) -> wp _beep Q (mkLogic c n tr).
Proof. exact id. Qed.

Lemma wp_branch c a b Q st n tr :
  (c st = true -> wp a Q (mkLogic st n tr)) ->
  (c st = false -> wp b Q (mkLogic st n tr)) ->
  wp (branch c a b) Q (mkLogic st n tr).
Proof.
  unfold wp, branch; cbn [s]. destruct (c st); auto.
Qed.

Lemma roll_shape (e : FocusClockLogic) :
  exists l k t,
    _roll_segment_if_needed e
    = mkLogic (with_segment l k t (s e)) (S (clock_reads e)) (calls e).
Proof.
  destruct e as [c n tr]; destruct c.
  unfold _roll_segment_if_needed, _close_segment, _open_segment, or_now, _now,
    seq, upd; record_nf.
  destruct _segment_start0; repeat (case_bool_decide; record_nf);
    do 3 eexists; reflexivity.
Qed.

Lemma wp_roll Q c n tr :
  (forall l k t, Q (mkLogic (with_segment l k t c) (S n) tr)) ->
  wp _roll_segment_if_needed Q (mkLogic c n tr).
Proof.
  intros H. unfold wp.
  destruct (roll_shape (mkLogic c n tr)) as (l & k & t & ->). apply H.
Qed.

(** Boolean conditions of the source as propositions. *)
Ltac bool_hyps :=
  repeat match goal with
    | H : _ && _ = true |- _ => apply andb_true_iff in H; destruct H
    | H : _ || _ = false |- _ => apply orb_false_iff in H; destruct H
    | H : _ || _ = true |- _ => apply orb_true_iff in H
    | H : _ && _ = false |- _ => apply andb_false_iff in H
    | H : negb _ = true |- _ => apply negb_true_iff in H
    | H : negb _ = false |- _ => apply negb_false_iff in H
    | H : bool_decide _ = true |- _ => apply bool_decide_eq_true_1 in H
    | H : bool_decide _ = false |- _ => apply bool_decide_eq_false_1 in H
    | H : (_ <=? _) = true |- _ => apply Z.leb_le in H
    | H : (_ <=? _) = false |- _ => apply Z.leb_gt in H
    | H : (_ =? _) = true |- _ => apply Z.eqb_eq in H
    | H : (_ =? _) = false |- _ => apply Z.eqb_neq in H
    | H : (_ >? _) = true |- _ => rewrite Z.gtb_ltb in H; apply Z.ltb_lt in H
    | H : (_ >? _) = false |- _ => rewrite Z.gtb_ltb in H; apply Z.ltb_ge in H
    | H : (_ >=? _) = true |- _ => rewrite Z.geb_leb in H; apply Z.leb_le in H
    | H : (_ >=? _) = false |- _ => rewrite Z.geb_leb in H; apply Z.leb_gt in H
    | H : _ \/ _ |- _ => destruct H
    | H : _ /\ _ |- _ => destruct H
    end.

Ltac finish :=
  bool_hyps; subst;
  solve [ repeat split; first [ done | lia | congruence | set_solver ] ].

(** Discard a branch whose condition contradicts what is known. *)
Ltac prune :=
  try solve [ exfalso; bool_hyps; first [ done | lia | congruence ] ].

Ltac head_of t := lazymatch t with ?f _ => head_of f | _ => t end.

(** One step of symbolic execution of the method at the head of the goal. *)
Ltac exec_step_with roll_rule :=
  lazymatch goal with
  | |- wp _ _ (if ?b then _ else _) => destruct b eqn:?; prune
  | |- wp _ _ (match ?x with _ => _ end) => destruct x eqn:?; prune
  | |- wp ?b ?Q (?a (mkLogic ?c ?n ?tr)) =>
      apply (wp_arg a b Q (mkLogic c n tr))
  | |- wp (seq _ _) _ _ => apply wp_seq
  | |- wp nop _ _ => apply wp_nop; fields
  | |- wp (upd _) _ _ => apply wp_upd; fields
  | |- wp _on_change _ _ => apply wp_on_change; fields
  | |- wp _beep _ _ => apply wp_beep; fields
  | |- wp _roll_segment_if_needed _ _ => roll_rule
  | |- wp (branch _ _ _) _ _ =>
      let Hc := fresh "Hc" in
      apply wp_branch; fields; intros Hc; prune
  | |- wp (fun _ => _) _ _ =>
      apply wp_unfold; unfold elapsed_in_phase, THRESHOLD_SEC; fields
  | |- wp (if ?b then _ else _) _ _ => destruct b eqn:?; prune
  | |- wp (match ?x with _ => _ end) _ _ => destruct x eqn:?; prune
  | |- wp ?a _ _ => let h := head_of a in unfold h at 1
  | |- context [if ?b then _ else _] => destruct b eqn:?; prune
  | |- context [match ?x with _ => _ end] => destruct x eqn:?; prune
  | |- context [?a (mkLogic ?c ?n ?tr)] =>
      lazymatch type of a with
      | Action => pattern (a (mkLogic c n tr)); apply wp_intro
      | FocusClockLogic -> FocusClockLogic =>
          pattern (a (mkLogic c n tr)); apply wp_intro
      end
  end.

(** A roll changes the log and the cursor in some way. *)
Ltac exec_step :=
  exec_step_with ltac:(apply wp_roll; intros ? ? ?; fields).

Ltac exec := repeat exec_step.

(** Start from an arbitrary engine: name its fields. *)
Ltac open_engine e :=
  let c := fresh "c" in
  intros;
  repeat match goal with
    | |- context [?a e] =>
        lazymatch type of a with
        | Action => pattern (a e); apply wp_intro
        | FocusClockLogic -> FocusClockLogic => pattern (a e); apply wp_intro
        end
    end;
  repeat match goal with H : context [e] |- _ => revert H end;
  destruct e as [c ? ?]; destruct c; fields; intros; subst.

(** ** Settings: [apply_settings] *)

(** The mode is not a setting. *)
Lemma apply_settings_mode fm bm ms goal su sbe (e : FocusClockLogic) :
  mode (s (apply_settings fm bm ms goal su sbe e)) = mode (s e).
Proof. open_engine e. exec; finish. Qed.

(** Idle (neither running nor in a microbreak): the countdown is recomputed,
    from the focus duration in focus mode and from the break duration in
    every other mode. *)
Lemma apply_settings_remaining_idle fm bm ms goal su sbe (e : FocusClockLogic) :
  running (s e) = false -> microbreak_active (s e) = false ->
  remaining (s (apply_settings fm bm ms goal su sbe e))
  = match mode (s e) with
    | focus => fm * 60
    | break | lunch => bm * 60
    end.
Proof. open_engine e. exec; finish. Qed.

(** Running or in a microbreak: the countdown in flight is kept. *)
Lemma apply_settings_remaining_busy fm bm ms goal su sbe (e : FocusClockLogic) :
  running (s e) = true \/ microbreak_active (s e) = true ->
  remaining (s (apply_settings fm bm ms goal su sbe e)) = remaining (s e).
Proof. open_engine e. exec; finish. Qed.

(** C1 (the lunch case fails). Lunch is started from the default state and
    then paused, so that the engine is in lunch mode, not running and not in
    a microbreak; applying the default settings then sets [remaining] to the
    break duration, 600 seconds, and not to the 3600 seconds of a lunch. *)
Theorem C1_apply_settings_in_paused_lunch :
  let e := pause (start_lunch_break initial) in
  let e' := apply_settings 50 10 60 7 1 true e in
  mode (s e) = lunch /\ running (s e) = false /\
  microbreak_active (s e) = false /\
  mode (s e') = lunch /\ remaining (s e') = 600 /\ remaining (s e') <> 3600.
Proof. vm_compute. repeat split; congruence. Qed.

(** ** Completing a focus unit *)

(** C2. In the study profile, with one unit missing to the goal,
    [finish_focus_unit] (with or without the microbreak courtesy) reaches the
    goal, marks the session finished, stops the clock, clears the microbreak
    overlay and leaves mode and countdown alone: no break, no microbreak.
    In particular this is what the tick does that takes [remaining] from 1
    to 0 in a running focus phase. *)
Theorem C2_finish_focus_unit_reaches_goal (e : FocusClockLogic) :
  profile (s e) = study ->
  completed_units (s e) = session_goal (s e) - 1 ->
  (forall use_microbreak_before_break,
      goal_reached e (finish_focus_unit use_microbreak_before_break e) /\
      remaining (s (finish_focus_unit use_microbreak_before_break e))
      = remaining (s e)) /\
  (finished (s e) = false -> running (s e) = true ->
   microbreak_active (s e) = false -> mode (s e) = focus ->
   remaining (s e) = 1 ->
   goal_reached e (on_tick e) /\ remaining (s (on_tick e)) = 0).
Proof.
  unfold goal_reached. intros Hp Hc. split.
  - intros [|]; open_engine e; exec; finish.
  - intros; open_engine e; exec; finish.
Qed.

(** ** Rewind *)

(** C3. Rewinding a focus phase (study profile, not finished, no microbreak):
    more than 10 seconds in, the phase restarts; within the first 10 seconds
    it restarts as well if no unit is completed, and otherwise the last unit
    is taken back and the break before it is entered. *)
Theorem C3_rewind_phase_in_focus (e : FocusClockLogic) :
  profile (s e) = study -> finished (s e) = false ->
  microbreak_active (s e) = false -> mode (s e) = focus ->
  let elapsed := focus_min (s e) * 60 - remaining (s e) in
  let e' := rewind_phase e in
  (elapsed > 10 ->
   remaining (s e') = focus_min (s e) * 60 /\
   completed_units (s e') = completed_units (s e) /\ mode (s e') = focus) /\
  (elapsed <= 10 -> completed_units (s e) = 0 ->
   remaining (s e') = focus_min (s e) * 60 /\
   completed_units (s e') = 0 /\ mode (s e') = focus) /\
  (elapsed <= 10 -> completed_units (s e) > 0 ->
   completed_units (s e') = completed_units (s e) - 1 /\
   mode (s e') = break /\ remaining (s e') = break_min (s e) * 60).
Proof.
  intros Hp Hf Hm Hmode elapsed e'; subst elapsed e'.
  split; [|split]; intros; open_engine e; exec; finish.
Qed.

(** ** Ticks *)

(** C4. A tick inside a microbreak that has more than one second left
    (study profile, running, not finished) freezes the phase: [remaining],
    [mode] and [completed_units] stay, [total_open_sec] and [microbreak_sec]
    grow by one, [microbreak_remaining] shrinks by one, and the microbreak
    goes on. *)
Theorem C4_on_tick_inside_microbreak (e : FocusClockLogic) :
  profile (s e) = study -> running (s e) = true -> finished (s e) = false ->
  microbreak_active (s e) = true -> microbreak_remaining (s e) > 1 ->
  let e' := on_tick e in
  remaining (s e') = remaining (s e) /\ mode (s e') = mode (s e) /\
  completed_units (s e') = completed_units (s e) /\
  total_open_sec (s e') = total_open_sec (s e) + 1 /\
  microbreak_sec (s e') = microbreak_sec (s e) + 1 /\
  microbreak_remaining (s e') = microbreak_remaining (s e) - 1 /\
  microbreak_active (s e') = true /\ after_micro (s e') = after_micro (s e).
Proof.
  intros ? ? ? ? ? e'; subst e'. open_engine e. exec; finish.
Qed.

(** C9. [on_pause_count_tick] adds one to [paused_sec] exactly when the
    engine is not running, not in a microbreak and not finished, whatever the
    profile; otherwise [paused_sec] stays. Nothing else changes: every other
    field of the state is as before, no clock is read, no callback runs. *)
Theorem C9_on_pause_count_tick (e : FocusClockLogic) :
  let e' := on_pause_count_tick e in
  (paused_sec (s e') = paused_sec (s e) + 1 <->
   running (s e) = false /\ microbreak_active (s e) = false /\
   finished (s e) = false) /\
  (paused_sec (s e') = paused_sec (s e) + 1 \/
   paused_sec (s e') = paused_sec (s e)) /\
  s e' = set_paused_sec (paused_sec (s e')) (s e) /\
  clock_reads e' = clock_reads e /\ calls e' = calls e.
Proof.
  intros e'; subst e'. open_engine e.
  exec; bool_hyps; subst; record_nf;
    repeat split; intros;
    first [ done | lia | (right; done) | (left; done) | idtac ].
Qed.

(** ** Microbreaks *)

(** C6. With screen breaks switched off, or a microbreak length of zero or
    less, [start_microbreak] opens no overlay and runs the continuation at
    once: [go_break] enters the break, [go_focus] enters focus, and
    [resume_focus] keeps mode and countdown; the tag is consumed. *)
Theorem C6_start_microbreak_disabled (after : AfterMicro) (e : FocusClockLogic) :
  screen_breaks_enabled (s e) = false \/ micro_sec (s e) <= 0 ->
  let e' := start_microbreak after e in
  microbreak_active (s e') = false /\ microbreak_remaining (s e') = 0 /\
  after_micro (s e') = no_after /\
  match after with
  | go_break => mode (s e') = break /\ remaining (s e') = break_min (s e) * 60
  | go_focus => mode (s e') = focus /\ remaining (s e') = focus_min (s e) * 60
  | resume_focus | no_after =>
      mode (s e') = mode (s e) /\ remaining (s e') = remaining (s e)
  end.
Proof.
  intros Hoff e'; subst e'. open_engine e.
  destruct after; exec; finish.
Qed.

(** ** Lunch *)

Lemma start_lunch_break_in_lunch (e : FocusClockLogic) :
  profile (s e) = study -> finished (s e) = false ->
  in_lunch e (start_lunch_break e) 3600.
Proof. unfold in_lunch. open_engine e. exec; finish. Qed.

Lemma on_tick_lunch_countdown (e0 e : FocusClockLogic) (r : Z) :
  in_lunch e0 e r -> 1 < r -> in_lunch e0 (on_tick e) (r - 1).
Proof.
  unfold in_lunch. intros (? & ? & ? & ? & ? & ? & ? & ? & ? & ?) Hr.
  open_engine e. exec; finish.
Qed.

Lemma on_tick_lunch_expiry (e0 e : FocusClockLogic) :
  in_lunch e0 e 1 ->
  mode (s (on_tick e)) = mode (s e0) /\
  remaining (s (on_tick e)) = remaining (s e0) /\
  running (s (on_tick e)) = running (s e0) /\
  completed_units (s (on_tick e)) = completed_units (s e0).
Proof.
  unfold in_lunch. intros (? & ? & ? & ? & ? & ? & ? & ? & ? & ?).
  open_engine e. exec; finish.
Qed.

Lemma ticks_S (n : nat) (e : FocusClockLogic) :
  ticks (S n) e = on_tick (ticks n e).
Proof. reflexivity. Qed.

Lemma ticks_lunch_countdown (e0 e1 : FocusClockLogic) (n : nat) :
  in_lunch e0 e1 3600 -> (n < 3600)%nat ->
  in_lunch e0 (ticks n e1) (3600 - Z.of_nat n).
Proof.
  intros H1. induction n as [|n IH]; intros Hn.
  - replace (3600 - Z.of_nat 0) with 3600 by lia. exact H1.
  - rewrite ticks_S.
    replace (3600 - Z.of_nat (S n)) with (3600 - Z.of_nat n - 1) by lia.
    apply on_tick_lunch_countdown; [apply IH|]; lia.
Qed.

(** In the worklog profile a tick never touches the phase. *)
Lemma on_tick_worklog (e : FocusClockLogic) :
  profile (s e) = worklog ->
  profile (s (on_tick e)) = worklog /\
  mode (s (on_tick e)) = mode (s e) /\
  remaining (s (on_tick e)) = remaining (s e) /\
  completed_units (s (on_tick e)) = completed_units (s e).
Proof. open_engine e. exec; finish. Qed.

Lemma ticks_worklog (e : FocusClockLogic) (n : nat) :
  profile (s e) = worklog ->
  profile (s (ticks n e)) = worklog /\
  mode (s (ticks n e)) = mode (s e) /\
  remaining (s (ticks n e)) = remaining (s e) /\
  completed_units (s (ticks n e)) = completed_units (s e).
Proof.
  intros Hp. induction n as [|n (IHp & IHm & IHr & IHc)]; [done|].
  rewrite ticks_S.
  destruct (on_tick_worklog (ticks n e) IHp) as (? & ? & ? & ?).
  repeat split; congruence.
Qed.

(** C5. From a state that is not finished, [start_lunch_break] snapshots
    mode, countdown and running flag, clears the microbreak overlay and starts
    a running lunch of 3600 seconds. In the study profile the lunch then
    counts down for 3599 ticks, staying in lunch mode with the completed units
    untouched, and the 3600th tick, on which [remaining] reaches 0, puts back
    exactly the snapshotted mode, countdown and running flag, the completed
    units still being those of the start. (In the worklog profile ticks never
    move [remaining], so the lunch never expires.) *)
Theorem C5_lunch_round_trip (e : FocusClockLogic) :
  finished (s e) = false ->
  let e1 := start_lunch_break e in
  (pre_lunch_mode (s e1) = mode (s e) /\
   pre_lunch_remaining (s e1) = remaining (s e) /\
   pre_lunch_was_running (s e1) = running (s e)) /\
  (microbreak_active (s e1) = false /\ microbreak_remaining (s e1) = 0 /\
   after_micro (s e1) = no_after /\
   mode (s e1) = lunch /\ remaining (s e1) = 3600 /\ running (s e1) = true) /\
  (profile (s e) = study ->
   (forall n, (n < 3600)%nat ->
      mode (s (ticks n e1)) = lunch /\
      remaining (s (ticks n e1)) = 3600 - Z.of_nat n /\
      0 < remaining (s (ticks n e1)) /\
      completed_units (s (ticks n e1)) = completed_units (s e)) /\
   mode (s (ticks 3600 e1)) = mode (s e) /\
   remaining (s (ticks 3600 e1)) = remaining (s e) /\
   running (s (ticks 3600 e1)) = running (s e) /\
   completed_units (s (ticks 3600 e1)) = completed_units (s e)) /\
  (profile (s e) = worklog ->
   forall n,
     mode (s (ticks n e1)) = lunch /\ remaining (s (ticks n e1)) = 3600 /\
     completed_units (s (ticks n e1)) = completed_units (s e)).
Proof.
  intros Hf e1.
  assert (Hsetup :
    (pre_lunch_mode (s e1) = mode (s e) /\
     pre_lunch_remaining (s e1) = remaining (s e) /\
     pre_lunch_was_running (s e1) = running (s e)) /\
    (microbreak_active (s e1) = false /\ microbreak_remaining (s e1) = 0 /\
     after_micro (s e1) = no_after /\
     mode (s e1) = lunch /\ remaining (s e1) = 3600 /\ running (s e1) = true) /\
    profile (s e1) = profile (s e) /\
    completed_units (s e1) = completed_units (s e)).
  { subst e1. revert Hf. open_engine e. exec; finish. }
  destruct Hsetup as (Hsnap & Hlunch & Hprof & Hunits).
  split; [exact Hsnap|]. split; [exact Hlunch|]. split.
  - intros Hp.
    pose proof (start_lunch_break_in_lunch e Hp Hf) as H1. fold e1 in H1.
    split.
    + intros n Hn.
      destruct (ticks_lunch_countdown e e1 n H1 Hn)
        as (_ & _ & _ & _ & Hm & Hr & Hc & _).
      repeat split; [exact Hm | exact Hr | lia | exact Hc].
    + change 3600%nat with (S 3599) at 1 2 3 4. rewrite ticks_S.
      apply on_tick_lunch_expiry.
      pose proof (ticks_lunch_countdown e e1 3599 H1 ltac:(lia)) as H2.
      replace (3600 - Z.of_nat 3599) with 1 in H2 by lia. exact H2.
  - intros Hp n.
    destruct (ticks_worklog e1 n) as (_ & Hm & Hr & Hc); [congruence|].
    destruct Hlunch as (_ & _ & _ & Hm1 & Hr1 & _).
    repeat split; congruence.
Qed.

(** ** Reminders *)

Lemma apply_settings_reminded fm bm ms goal su sbe (e : FocusClockLogic) :
  reminded_this_focus (s (apply_settings fm bm ms goal su sbe e))
  = reminded_this_focus (s e).
Proof. open_engine e. exec; finish. Qed.

Lemma switch_to_focus_reminded (e : FocusClockLogic) :
  reminded_this_focus (s (switch_to_focus e)) = ∅.
Proof. open_engine e. exec; finish. Qed.

(** C10. [apply_settings] leaves [reminded_this_focus] as it was, also when
    it puts [remaining] back to the full focus duration; the set is emptied
    by [switch_to_focus]. Hence a threshold that is still in the set does not
    fire on the tick that reaches it again: no microbreak starts and the set
    stays. *)
Theorem C10_apply_settings_keeps_reminded :
  (forall fm bm ms goal su sbe (e : FocusClockLogic),
      let e' := apply_settings fm bm ms goal su sbe e in
      reminded_this_focus (s e') = reminded_this_focus (s e) /\
      remind_at (s e') = remind_at (s e) /\
      (mode (s e) = focus -> running (s e) = false ->
       microbreak_active (s e) = false -> remaining (s e') = fm * 60)) /\
  (forall e : FocusClockLogic, reminded_this_focus (s (switch_to_focus e)) = ∅) /\
  (forall e : FocusClockLogic,
      profile (s e) = study -> finished (s e) = false ->
      running (s e) = true -> microbreak_active (s e) = false ->
      mode (s e) = focus -> 0 < remaining (s e) - 1 ->
      remaining (s e) - 1 ∈ reminded_this_focus (s e) ->
      microbreak_active (s (on_tick e)) = false /\
      reminded_this_focus (s (on_tick e)) = reminded_this_focus (s e) /\
      mode (s (on_tick e)) = focus /\
      remaining (s (on_tick e)) = remaining (s e) - 1).
Proof.
  split; [|split].
  - intros fm bm ms goal su sbe e e'; subst e'.
    split; [apply apply_settings_reminded|]. split.
    + open_engine e. exec; finish.
    + intros Hm Hr Hmb.
      rewrite apply_settings_remaining_idle by assumption. by rewrite Hm.
  - apply switch_to_focus_reminded.
  - intros e. open_engine e. exec; finish.
Qed.

(** ** The unit counter *)

Lemma perform_phase_ok (o : Op) (e : FocusClockLogic) :
  goal_positive o = true -> phase_ok (s e) -> phase_ok (s (perform o e)).
Proof.
  unfold phase_ok. intros Hg (Hp & Hgoal & Hc & Hfin).
  destruct o; unfold perform, goal_positive in *;
    open_engine e; exec; finish.
Qed.

Lemma run_phase_ok (ops : list Op) (e : FocusClockLogic) :
  forallb goal_positive ops = true -> phase_ok (s e) -> phase_ok (s (run ops e)).
Proof.
  revert e. induction ops as [|o ops IH]; intros e Hg He; [exact He|].
  apply andb_true_iff in Hg as [Ho Hops].
  apply IH; [exact Hops|]. by apply perform_phase_ok.
Qed.

(** C7, as amended. In every state reached from the default state by public
    operations in which each [apply_settings] passes a goal of at least 1,
    the completed units lie between 0 and the session goal, and a finished
    session is not running. *)
Theorem C7_units_in_range_reachable (ops : list Op) :
  forallb goal_positive ops = true ->
  units_in_range (s (run ops initial)).
Proof.
  intros Hg.
  assert (H0 : phase_ok (s initial)).
  { unfold phase_ok, initial, default_state; cbn.
    repeat split; lia. }
  destruct (run_phase_ok ops initial Hg H0) as (_ & _ & Hc & Hfin).
  split; [exact Hc|]. intros Hf. destruct Hfin as [[_ Hr]|[Hf' _]]; congruence.
Qed.

(** ** The segment log *)

Lemma _current_kind_not_empty (c : ClockState) : _current_kind c <> NO_KIND.
Proof.
  unfold _current_kind.
  destruct (profile c), (microbreak_active c), (running c), (mode c); done.
Qed.

Lemma gap_free_snoc (l : list LogEntry) (y : LogEntry) :
  gap_free l ->
  (forall x, last l = Some x -> end_at x = start_at y) ->
  gap_free (l ++ [y]).
Proof.
  intros Hl Hlast i e1 e2 H1 H2.
  assert (Hi : (S i < length (l ++ [y]))%nat) by (eapply lookup_lt_Some; eauto).
  rewrite length_app in Hi; cbn in Hi.
  destruct (decide (S i < length l)%nat) as [Hlt|Hge].
  - rewrite lookup_app_l in H1 by lia. rewrite lookup_app_l in H2 by lia.
    eauto.
  - assert (Hlen : length l = S i) by lia.
    rewrite lookup_app_l in H1 by lia.
    rewrite lookup_app_r in H2 by lia.
    replace (S i - length l)%nat with 0%nat in H2 by lia.
    cbn in H2. injection H2 as <-.
    apply Hlast. rewrite last_lookup, Hlen. exact H1.
Qed.

Lemma entries_ordered_snoc (l : list LogEntry) (y : LogEntry) :
  entries_ordered l -> start_at y <= end_at y -> entries_ordered (l ++ [y]).
Proof.
  intros Hl Hy x Hx. apply elem_of_app in Hx as [Hx|Hx]; [by apply Hl|].
  apply list_elem_of_singleton in Hx as ->. exact Hy.
Qed.

Lemma seg_ok_closed (n : nat) : seg_ok [] NO_KIND None n.
Proof.
  repeat split.
  - intros i e1 e2 H; by rewrite lookup_nil in H.
  - intros _ x Hx. by apply elem_of_nil in Hx.
Qed.

(** A roll keeps the log invariant, and touches nothing but the log, the
    cursor and the clock. *)
Lemma roll_shape_inv (c : ClockState) (n : nat) (tr : list Callback) :
  seg_ok (log c) (_segment_kind c) (_segment_start c) n ->
  exists l k t,
    _roll_segment_if_needed (mkLogic c n tr)
    = mkLogic (with_segment l k t c) (S n) tr /\
    seg_ok l k t (S n).
Proof.
  pose proof (_current_kind_not_empty c) as Hkind.
  destruct c. revert Hkind.
  unfold _roll_segment_if_needed, _close_segment, _open_segment, or_now, _now,
    seq, upd, seg_ok; record_nf.
  set (new_kind := _current_kind _). intros Hkind (Hgap & Hord & Hcur).
  destruct _segment_start0 as [t0|].
  - destruct Hcur as (Hk & Hbound & Hlast).
    case_bool_decide as Hsame; record_nf.
    + do 3 eexists. split; [reflexivity|].
      repeat split; try done. intros Hm m Hle. apply Hbound; [done | lia].
    + rewrite bool_decide_eq_false_2 by done. record_nf.
      do 3 eexists. split; [reflexivity|].
      split; [|split; [|split; [|split]]]; try done.
      * by apply gap_free_snoc.
      * intros Hm. apply entries_ordered_snoc; [by apply Hord|].
        cbn. apply Hbound; [done | lia].
      * intros Hm m Hle. apply Hm. lia.
      * intros x Hx. rewrite last_snoc in Hx. by injection Hx as <-.
  - subst log0. do 3 eexists. split; [reflexivity|].
    split; [|split; [|split; [|split]]]; try done.
    intros Hm m Hle. apply Hm. lia.
Qed.

Lemma wp_roll_inv Q c n tr :
  seg_ok (log c) (_segment_kind c) (_segment_start c) n ->
  (forall l k t, seg_ok l k t (S n) ->
     Q (mkLogic (with_segment l k t c) (S n) tr)) ->
  wp _roll_segment_if_needed Q (mkLogic c n tr).
Proof.
  intros Hok H. unfold wp.
  destruct (roll_shape_inv c n tr Hok) as (l & k & t & -> & Hok').
  by apply H.
Qed.

(** Symbolic execution that carries the log invariant across rolls. *)
Ltac exec_inv :=
  repeat exec_step_with
    ltac:(apply wp_roll_inv; [ fields; eassumption | intros ? ? ? ?; fields ]).

Lemma perform_seg_inv (o : Op) (e : FocusClockLogic) :
  seg_inv e -> seg_inv (perform o e).
Proof.
  unfold seg_inv. intros Hok.
  destruct o; unfold perform; open_engine e; exec_inv;
    first [ eassumption | apply seg_ok_closed ].
Qed.

Lemma run_seg_inv (ops : list Op) (e : FocusClockLogic) :
  seg_inv e -> seg_inv (run ops e).
Proof.
  revert e. induction ops as [|o ops IH]; intros e He; [exact He|].
  apply IH. by apply perform_seg_inv.
Qed.

(** C8, as amended. In every state reached from the default state by the
    public operations of the engine alone (the window calling
    [_close_segment] itself is not among them) the closed entries of the log
    are gap free and overlap free: each entry ends at the instant at which the
    next one starts. No entry ends before it starts, provided the wall clock
    never goes back. *)
Theorem C8_segment_log_gap_free (ops : list Op) :
  let l := log (s (run ops initial)) in
  (forall (i : nat) (e1 e2 : LogEntry),
      l !! i = Some e1 -> l !! S i = Some e2 -> end_at e1 = start_at e2) /\
  (wall_monotone -> forall x : LogEntry, x ∈ l -> start_at x <= end_at x).
Proof.
  intros l.
  destruct (run_seg_inv ops initial (seg_ok_closed 0)) as (Hgap & Hord & _).
  split; [exact Hgap | exact Hord].
Qed.

(** * Further properties of the engine *)

(** Like [finish], for goals with alternatives. *)
Ltac alt :=
  solve [ done | lia | congruence
        | split; alt | left; alt | right; alt ].

Ltac settle := bool_hyps; subst; alt.

(** ** Invariants of the study session *)

Lemma perform_overlay_consistent (o : Op) (e : FocusClockLogic) :
  profile (s e) = study -> overlay_consistent (s e) ->
  profile (s (perform o e)) = study /\ overlay_consistent (s (perform o e)).
Proof.
  unfold overlay_consistent.
  intros Hp [(Ha & Hr & Haf) | (Ha & Hr & [Haf|Haf] & Hm & Hf)];
    destruct o; unfold perform; open_engine e; exec; settle.
Qed.

Lemma run_overlay_consistent (ops : list Op) (e : FocusClockLogic) :
  profile (s e) = study -> overlay_consistent (s e) ->
  profile (s (run ops e)) = study /\ overlay_consistent (s (run ops e)).
Proof.
  revert e. induction ops as [|o ops IH]; intros e Hp He; [done|].
  destruct (perform_overlay_consistent o e Hp He) as [Hp' He'].
  by apply IH.
Qed.

(** X1. In every state reached from the default state by public operations,
    the microbreak overlay is consistent: either it is off, with
    [microbreak_remaining] at 0 and no continuation pending, or it is on, over
    an unfinished focus phase, with at least one second left and the
    continuation [resume_focus] or [go_break] ([go_focus] never occurs). *)
Theorem X1_overlay_consistent_reachable (ops : list Op) :
  overlay_consistent (s (run ops initial)).
Proof.
  apply run_overlay_consistent; [done|]. left. by repeat split.
Qed.

Lemma perform_reminders_consistent (o : Op) (e : FocusClockLogic) :
  reminders_consistent (s e) -> reminders_consistent (s (perform o e)).
Proof.
  unfold reminders_consistent. intros [Hat Hsub].
  destruct o; unfold perform; open_engine e; exec;
    bool_hyps; subst;
    (split;
     [ done
     | first [ done | apply empty_subseteq
             | apply union_least; [by apply singleton_subseteq_l | done] ] ]).
Qed.

(** X2. In every state reached from the default state by public operations,
    the reminder thresholds are still the default ones, 2400, 1200 and 0
    seconds, and every threshold recorded as fired is one of them. *)
Theorem X2_reminders_consistent_reachable (ops : list Op) :
  reminders_consistent (s (run ops initial)).
Proof.
  assert (Hrun : forall e, reminders_consistent (s e) ->
                           reminders_consistent (s (run ops e))).
  { induction ops as [|o ops IH]; intros e He; [done|].
    apply IH. by apply perform_reminders_consistent. }
  apply Hrun. split; [done|]. apply empty_subseteq.
Qed.

Lemma perform_stats_consistent (o : Op) (e : FocusClockLogic) :
  stats_consistent (s e) -> stats_consistent (s (perform o e)).
Proof.
  unfold stats_consistent. intros (H1 & H2 & H3 & H4).
  destruct o; unfold perform; open_engine e; exec; finish.
Qed.

(** X3. In every state reached from the default state by public operations,
    the statistics counters are non-negative and the seconds counted as
    screen break or as focus work together never exceed the seconds counted
    as open. *)
Theorem X3_stats_consistent_reachable (ops : list Op) :
  stats_consistent (s (run ops initial)).
Proof.
  assert (Hrun : forall e, stats_consistent (s e) ->
                           stats_consistent (s (run ops e))).
  { induction ops as [|o ops IH]; intros e He; [done|].
    apply IH. by apply perform_stats_consistent. }
  apply Hrun. unfold stats_consistent; cbn. lia.
Qed.

(** X4. Apart from [reset_all], a public operation leaves each statistics
    counter as it was or adds exactly one second to it; it never counts the
    same second both as open and as paused, nor both as screen break and as
    focus work. *)
Theorem X4_counters_advance_by_one (o : Op) (e : FocusClockLogic) :
  o <> ResetAll ->
  let c := s e in
  let c' := s (perform o e) in
  (total_open_sec c' = total_open_sec c \/
   total_open_sec c' = total_open_sec c + 1) /\
  (paused_sec c' = paused_sec c \/ paused_sec c' = paused_sec c + 1) /\
  (microbreak_sec c' = microbreak_sec c \/
   microbreak_sec c' = microbreak_sec c + 1) /\
  (focus_work_sec c' = focus_work_sec c \/
   focus_work_sec c' = focus_work_sec c + 1) /\
  (total_open_sec c' = total_open_sec c \/ paused_sec c' = paused_sec c) /\
  (microbreak_sec c' = microbreak_sec c \/
   focus_work_sec c' = focus_work_sec c).
Proof.
  intros Ho c c'; subst c c'.
  destruct o; try done; unfold perform; open_engine e; exec; finish.
Qed.

Lemma perform_finished_at_goal (o : Op) (e : FocusClockLogic) :
  goal_positive o = true -> phase_ok (s e) -> finished_at_goal (s e) ->
  finished_at_goal (s (perform o e)).
Proof.
  unfold phase_ok, finished_at_goal.
  intros Hg (Hp & Hgoal & Hc & [[Hf Hr]|[Hf Hlt]]) Hfin;
    destruct o; unfold perform, goal_positive in *;
    open_engine e; exec; settle.
Qed.

(** X5. In every state reached from the default state by public operations
    whose [apply_settings] calls pass a goal of at least 1, a finished
    session has completed exactly [session_goal] units. *)
Theorem X5_finished_at_goal_reachable (ops : list Op) :
  forallb goal_positive ops = true ->
  finished (s (run ops initial)) = true ->
  completed_units (s (run ops initial)) = session_goal (s (run ops initial)).
Proof.
  intros Hg Hfin.
  assert (Hrun : forall e, phase_ok (s e) -> finished_at_goal (s e) ->
                           finished_at_goal (s (run ops e))).
  { clear Hfin. induction ops as [|o ops IH]; intros e Hok He; [done|].
    apply andb_true_iff in Hg as [Ho Hops].
    apply IH; [done | by apply perform_phase_ok
              | by apply perform_finished_at_goal]. }
  destruct (Hrun initial) as [Hf|Heq]; [| by left | congruence | done].
  unfold phase_ok, initial, default_state; cbn. repeat split; lia.
Qed.

(** X6. In every such state the unit shown to the user, [current_unit], lies
    between 1 and the session goal; while the session is not finished it is
    the number of completed units plus one. *)
Theorem X6_current_unit_in_range (ops : list Op) :
  forallb goal_positive ops = true ->
  let c := s (run ops initial) in
  1 <= current_unit c <= session_goal c /\
  (finished c = false -> current_unit c = completed_units c + 1).
Proof.
  intros Hg c.
  assert (Hok : phase_ok c).
  { apply run_phase_ok; [done|].
    unfold phase_ok, initial, default_state; cbn. repeat split; lia. }
  destruct Hok as (_ & Hgoal & Hc & Hfin). unfold current_unit.
  destruct (finished c); [split; [lia | done]|].
  destruct Hfin as [[? _]|[_ Hlt]]; [done|]. split; [lia|]. intros _. lia.
Qed.

(** ** Kinds and durations in the segment log *)

Lemma alternating_snoc (l : list LogEntry) (y : LogEntry) :
  alternating l ->
  (forall x, last l = Some x -> kind x <> kind y) ->
  alternating (l ++ [y]).
Proof.
  intros Hl Hlast i e1 e2 H1 H2.
  assert (Hi : (S i < length (l ++ [y]))%nat) by (eapply lookup_lt_Some; eauto).
  rewrite length_app in Hi; cbn in Hi.
  destruct (decide (S i < length l)%nat) as [Hlt|Hge].
  - rewrite lookup_app_l in H1 by lia. rewrite lookup_app_l in H2 by lia.
    eauto.
  - assert (Hlen : length l = S i) by lia.
    rewrite lookup_app_l in H1 by lia.
    rewrite lookup_app_r in H2 by lia.
    replace (S i - length l)%nat with 0%nat in H2 by lia.
    cbn in H2. injection H2 as <-.
    apply Hlast. rewrite last_lookup, Hlen. exact H1.
Qed.

Lemma roll_shape_kinds (c : ClockState) (n : nat) (tr : list Callback) :
  kinds_ok (log c) (_segment_kind c) (_segment_start c) ->
  exists l k t,
    _roll_segment_if_needed (mkLogic c n tr)
    = mkLogic (with_segment l k t c) (S n) tr /\
    kinds_ok l k t.
Proof.
  pose proof (_current_kind_not_empty c) as Hkind.
  destruct c. revert Hkind.
  unfold _roll_segment_if_needed, _close_segment, _open_segment, or_now, _now,
    seq, upd, kinds_ok; record_nf.
  set (new_kind := _current_kind _). intros Hkind (Hall & Halt & Hcur).
  destruct _segment_start0 as [t0|].
  - destruct Hcur as (Hk & Hlast).
    case_bool_decide as Hsame; record_nf.
    + do 3 eexists. split; [reflexivity|]. by repeat split.
    + rewrite bool_decide_eq_false_2 by done. record_nf.
      do 3 eexists. split; [reflexivity|].
      split; [|split; [|split]]; try done.
      * intros x Hx. apply elem_of_app in Hx as [Hx|Hx]; [by apply Hall|].
        apply list_elem_of_singleton in Hx as ->. done.
      * by apply alternating_snoc.
      * intros x Hx. rewrite last_snoc in Hx. injection Hx as <-.
        cbn. congruence.
  - subst log0. do 3 eexists. split; [reflexivity|].
    split; [|split; [|split]]; try done.
Qed.

Lemma wp_roll_kinds Q c n tr :
  kinds_ok (log c) (_segment_kind c) (_segment_start c) ->
  (forall l k t, kinds_ok l k t ->
     Q (mkLogic (with_segment l k t c) (S n) tr)) ->
  wp _roll_segment_if_needed Q (mkLogic c n tr).
Proof.
  intros Hok H. unfold wp.
  destruct (roll_shape_kinds c n tr Hok) as (l & k & t & -> & Hok').
  by apply H.
Qed.

Ltac exec_kinds :=
  repeat exec_step_with
    ltac:(apply wp_roll_kinds; [ fields; eassumption | intros ? ? ? ?; fields ]).

Lemma kinds_ok_closed : kinds_ok [] NO_KIND None.
Proof.
  repeat split.
  - intros x Hx. by apply elem_of_nil in Hx.
  - intros i e1 e2 H; by rewrite lookup_nil in H.
Qed.

Lemma perform_kinds_ok (o : Op) (e : FocusClockLogic) :
  kinds_ok (log (s e)) (_segment_kind (s e)) (_segment_start (s e)) ->
  kinds_ok (log (s (perform o e))) (_segment_kind (s (perform o e)))
    (_segment_start (s (perform o e))).
Proof.
  intros Hok.
  destruct o; unfold perform; open_engine e; exec_kinds;
    first [ eassumption | apply kinds_ok_closed ].
Qed.

(** X7. In every state reached from the default state by the public
    operations of the engine alone (the window calling [_close_segment]
    itself is not among them), every closed entry of the log carries a kind
    (never the empty string), and two neighbouring entries never have the
    same kind: these operations close a segment only when the kind of
    activity changes. *)
Theorem X7_log_kinds_alternate (ops : list Op) :
  let l := log (s (run ops initial)) in
  (forall x : LogEntry, x ∈ l -> kind x <> NO_KIND) /\
  (forall (i : nat) (e1 e2 : LogEntry),
      l !! i = Some e1 -> l !! S i = Some e2 -> kind e1 <> kind e2).
Proof.
  intros l.
  assert (Hrun : forall e,
    kinds_ok (log (s e)) (_segment_kind (s e)) (_segment_start (s e)) ->
    kinds_ok (log (s (run ops e))) (_segment_kind (s (run ops e)))
      (_segment_start (s (run ops e)))).
  { induction ops as [|o ops IH]; intros e He; [done|].
    apply IH. by apply perform_kinds_ok. }
  destruct (Hrun initial kinds_ok_closed) as (Hall & Halt & _).
  split; [exact Hall | exact Halt].
Qed.






(** After a roll a segment is open and has the current kind. *)
Lemma roll_settles (e : FocusClockLogic) :
  let c' := s (_roll_segment_if_needed e) in
  _segment_start c' <> None /\ _segment_kind c' = _current_kind c'.
Proof.
  destruct e as [c n tr]; destruct c.
  unfold _roll_segment_if_needed, _close_segment, _open_segment, or_now, _now,
    seq, upd; record_nf.
  set (new_kind := _current_kind _).
  destruct _segment_start0 as [t0|]; record_nf.
  - case_bool_decide as Hsame; record_nf.
    + split; [done|]. by rewrite <- Hsame.
    + case_bool_decide as Hempty; record_nf; by split.
  - by split.
Qed.

(** With a segment of the current kind open, a roll only reads the clock. *)
Lemma roll_settled (c : ClockState) (n : nat) (tr : list Callback) :
  _segment_start c <> None -> _segment_kind c = _current_kind c ->
  _roll_segment_if_needed (mkLogic c n tr) = mkLogic c (S n) tr.
Proof.
  intros Hopen Hkind.
  unfold _roll_segment_if_needed, _now. cbn [s clock_reads calls].
  destruct (_segment_start c); [|done].
  by rewrite Hkind, bool_decide_eq_true_2.
Qed.

(** X9. Rolling the segment twice in a row is the same as rolling it once:
    the second roll only reads the clock; it leaves the state, the log
    included, and the callbacks as the first roll left them. *)
Theorem X9_roll_twice (e : FocusClockLogic) :
  s (_roll_segment_if_needed (_roll_segment_if_needed e))
  = s (_roll_segment_if_needed e) /\
  calls (_roll_segment_if_needed (_roll_segment_if_needed e))
  = calls (_roll_segment_if_needed e).
Proof.
  destruct (roll_settles e) as [Hopen Hkind].
  destruct (_roll_segment_if_needed e) as [c n tr].
  cbn [s] in Hopen, Hkind. by rewrite roll_settled.
Qed.

(** ** Skip and rewind *)

(** X10. Skipping a focus phase (study profile, not finished, no microbreak)
    that does not complete the goal counts the unit and enters the break
    directly, at its full length, without a microbreak; the running flag is
    kept, and the outside hears one beep followed by one change. *)
Theorem X10_skip_phase_in_focus (e : FocusClockLogic) :
  profile (s e) = study -> finished (s e) = false ->
  microbreak_active (s e) = false -> mode (s e) = focus ->
  completed_units (s e) + 1 < session_goal (s e) ->
  let e' := skip_phase e in
  completed_units (s e') = completed_units (s e) + 1 /\
  mode (s e') = break /\ remaining (s e') = break_min (s e) * 60 /\
  microbreak_active (s e') = false /\
  finished (s e') = false /\ running (s e') = running (s e) /\
  calls e' = calls e ++ [beep_call; on_change_call].
Proof.
  intros ? ? ? ? ? e'; subst e'. open_engine e. exec; bool_hyps; subst.
  repeat split; try done. by rewrite <- app_assoc.
Qed.

(** X11. Skipping a break or a lunch (study profile, not finished, no
    microbreak) enters focus at its full length with no reminder fired; the
    completed units and the running flag are kept, and the phase that lunch
    had interrupted is not resumed. *)
Theorem X11_skip_phase_out_of_focus (e : FocusClockLogic) :
  profile (s e) = study -> finished (s e) = false ->
  microbreak_active (s e) = false -> mode (s e) <> focus ->
  let e' := skip_phase e in
  mode (s e') = focus /\ remaining (s e') = focus_min (s e) * 60 /\
  reminded_this_focus (s e') = ∅ /\
  completed_units (s e') = completed_units (s e) /\
  running (s e') = running (s e) /\ finished (s e') = false.
Proof.
  intros ? ? ? ? e'; subst e'. open_engine e. exec; finish.
Qed.

(** X12. A finished session is frozen: ticks, pause ticks, start, skip,
    rewind and lunch leave the engine exactly as it is, without reading the
    clock or calling back. *)
Theorem X12_finished_is_frozen (e : FocusClockLogic) :
  finished (s e) = true ->
  on_tick e = e /\ on_pause_count_tick e = e /\ start e = e /\
  skip_phase e = e /\ rewind_phase e = e /\ start_lunch_break e = e.
Proof.
  intros Hf.
  unfold on_tick, on_pause_count_tick, start, skip_phase, rewind_phase,
    start_lunch_break, branch, nop.
  rewrite Hf. cbn. rewrite !andb_false_r.
  repeat split; by destruct (bool_decide _).
Qed.

(** X13. Rewinding inside a microbreak (study profile, not finished) cancels
    the overlay and nothing else of the phase: mode, countdown, completed
    units, running flag and fired reminders are kept. *)
Theorem X13_rewind_phase_in_microbreak (e : FocusClockLogic) :
  profile (s e) = study -> finished (s e) = false ->
  microbreak_active (s e) = true ->
  let e' := rewind_phase e in
  microbreak_active (s e') = false /\ microbreak_remaining (s e') = 0 /\
  after_micro (s e') = no_after /\
  mode (s e') = mode (s e) /\ remaining (s e') = remaining (s e) /\
  completed_units (s e') = completed_units (s e) /\
  running (s e') = running (s e) /\
  reminded_this_focus (s e') = reminded_this_focus (s e).
Proof.
  intros ? ? ? e'; subst e'. open_engine e. exec; finish.
Qed.

(** X14. Rewinding a break (study profile, not finished, no microbreak): more
    than 10 seconds in, the break restarts; within the first 10 seconds the
    focus phase before it is entered again at full length, and the unit it
    had completed stays counted. *)
Theorem X14_rewind_phase_in_break (e : FocusClockLogic) :
  profile (s e) = study -> finished (s e) = false ->
  microbreak_active (s e) = false -> mode (s e) = break ->
  let elapsed := break_min (s e) * 60 - remaining (s e) in
  let e' := rewind_phase e in
  completed_units (s e') = completed_units (s e) /\
  (elapsed > 10 ->
   mode (s e') = break /\ remaining (s e') = break_min (s e) * 60) /\
  (elapsed <= 10 ->
   mode (s e') = focus /\ remaining (s e') = focus_min (s e) * 60 /\
   reminded_this_focus (s e') = ∅).
Proof.
  intros ? ? ? ? elapsed e'; subst elapsed e'.
  split; [|split]; intros; open_engine e; exec; finish.
Qed.

(** X15. A lunch started by mistake can be taken back: in the study profile,
    from a state that is not finished, [rewind_phase] right after
    [start_lunch_break] gives back mode, countdown, running flag and
    completed units; only a microbreak that was active is gone. *)
Theorem X15_rewind_undoes_lunch (e : FocusClockLogic) :
  profile (s e) = study -> finished (s e) = false ->
  let e' := rewind_phase (start_lunch_break e) in
  mode (s e') = mode (s e) /\ remaining (s e') = remaining (s e) /\
  running (s e') = running (s e) /\
  completed_units (s e') = completed_units (s e) /\
  microbreak_active (s e') = false /\ after_micro (s e') = no_after /\
  microbreak_remaining (s e') = 0.
Proof.
  intros ? ? e'; subst e'. open_engine e. exec; finish.
Qed.

(** ** Ticks through a microbreak *)

Lemma on_tick_microbreak_step (e : FocusClockLogic) :
  profile (s e) = study -> running (s e) = true -> finished (s e) = false ->
  microbreak_active (s e) = true -> 1 < microbreak_remaining (s e) ->
  let e' := on_tick e in
  (profile (s e') = study /\ running (s e') = true /\
   finished (s e') = false /\ microbreak_active (s e') = true) /\
  microbreak_remaining (s e') = microbreak_remaining (s e) - 1 /\
  after_micro (s e') = after_micro (s e) /\
  (mode (s e') = mode (s e) /\ remaining (s e') = remaining (s e) /\
   completed_units (s e') = completed_units (s e) /\
   focus_min (s e') = focus_min (s e) /\ break_min (s e') = break_min (s e)) /\
  microbreak_sec (s e') = microbreak_sec (s e) + 1 /\
  total_open_sec (s e') = total_open_sec (s e) + 1.
Proof.
  intros ? ? ? ? ? e'; subst e'. open_engine e. exec; finish.
Qed.

Lemma on_tick_microbreak_end (e : FocusClockLogic) :
  profile (s e) = study -> running (s e) = true -> finished (s e) = false ->
  microbreak_active (s e) = true -> microbreak_remaining (s e) = 1 ->
  after_microbreak e (on_tick e) /\
  microbreak_sec (s (on_tick e)) = microbreak_sec (s e) + 1 /\
  total_open_sec (s (on_tick e)) = total_open_sec (s e) + 1.
Proof.
  unfold after_microbreak. open_engine e.
  destruct after_micro0; exec; finish.
Qed.

Lemma ticks_S_r (n : nat) (e : FocusClockLogic) :
  ticks (S n) e = ticks n (on_tick e).
Proof. unfold ticks. by rewrite Nat.iter_succ_r. Qed.

Lemma ticks_through_microbreak (n : nat) (e : FocusClockLogic) :
  profile (s e) = study -> running (s e) = true -> finished (s e) = false ->
  microbreak_active (s e) = true ->
  microbreak_remaining (s e) = Z.of_nat (S n) ->
  after_microbreak e (ticks (S n) e) /\
  microbreak_sec (s (ticks (S n) e)) = microbreak_sec (s e) + Z.of_nat (S n) /\
  total_open_sec (s (ticks (S n) e)) = total_open_sec (s e) + Z.of_nat (S n).
Proof.
  revert e. induction n as [|n IH]; intros e Hp Hr Hf Ha Hk.
  - change (ticks 1 e) with (on_tick e).
    by apply on_tick_microbreak_end.
  - rewrite ticks_S_r.
    destruct (on_tick_microbreak_step e Hp Hr Hf Ha ltac:(lia))
      as ((Hp' & Hr' & Hf' & Ha') & Hk' & Haf & (Hm & Hrem & Hc & Hfm & Hbm)
          & Hms & Hto).
    destruct (IH (on_tick e) Hp' Hr' Hf' Ha' ltac:(lia))
      as ((Ha2 & Hk2 & Haf2 & Hc2 & Hcont) & Hms2 & Hto2).
    split; [|split; lia].
    unfold after_microbreak. rewrite Haf in Hcont.
    repeat split; try done; try congruence.
    destruct (after_micro (s e)); destruct Hcont; split; congruence.
Qed.

Lemma ticks_microbreak_positive (k : nat) (e : FocusClockLogic) :
  profile (s e) = study -> running (s e) = true -> finished (s e) = false ->
  microbreak_active (s e) = true ->
  (0 < k)%nat -> microbreak_remaining (s e) = Z.of_nat k ->
  after_microbreak e (ticks k e) /\
  microbreak_sec (s (ticks k e)) = microbreak_sec (s e) + Z.of_nat k /\
  total_open_sec (s (ticks k e)) = total_open_sec (s e) + Z.of_nat k.
Proof.
  intros Hp Hr Hf Ha Hk Hrem. destruct k as [|n]; [lia|].
  by apply ticks_through_microbreak.
Qed.

(** X16. A microbreak runs its course without touching the phase: in the
    study profile, running and not finished, with [k] seconds of microbreak
    left, [k] ticks end the overlay and run its continuation. With
    [resume_focus] mode and countdown are those from before the microbreak;
    with [go_break] the break starts at full length. The completed units are
    kept, and [microbreak_sec] and [total_open_sec] have grown by [k]. *)
Theorem X16_ticks_through_microbreak (k : nat) (e : FocusClockLogic) :
  profile (s e) = study -> running (s e) = true -> finished (s e) = false ->
  microbreak_active (s e) = true ->
  (0 < k)%nat -> microbreak_remaining (s e) = Z.of_nat k ->
  after_microbreak e (ticks k e) /\
  microbreak_sec (s (ticks k e)) = microbreak_sec (s e) + Z.of_nat k /\
  total_open_sec (s (ticks k e)) = total_open_sec (s e) + Z.of_nat k.
Proof.
  intros Hp Hr Hf Ha Hk Hrem. destruct k as [|n]; [lia|].
  by apply ticks_through_microbreak.
Qed.

(** ** Single ticks *)

(** X17. A plain countdown tick (study profile, running, not finished, no
    microbreak, more than one second left, no reminder due) takes one second
    off [remaining], adds one to [total_open_sec] and, in focus only, to
    [focus_work_sec]; mode, completed units, overlay and fired reminders are
    kept, and the outside gets exactly one change notification. *)
Theorem X17_on_tick_countdown (e : FocusClockLogic) :
  profile (s e) = study -> running (s e) = true -> finished (s e) = false ->
  microbreak_active (s e) = false -> 1 < remaining (s e) ->
  (mode (s e) <> focus \/ remaining (s e) - 1 ∉ remind_at (s e) \/
   remaining (s e) - 1 ∈ reminded_this_focus (s e)) ->
  let e' := on_tick e in
  remaining (s e') = remaining (s e) - 1 /\
  total_open_sec (s e') = total_open_sec (s e) + 1 /\
  focus_work_sec (s e')
  = focus_work_sec (s e) + (if bool_decide (mode (s e) = focus) then 1 else 0) /\
  mode (s e') = mode (s e) /\
  completed_units (s e') = completed_units (s e) /\
  microbreak_active (s e') = false /\
  reminded_this_focus (s e') = reminded_this_focus (s e) /\
  running (s e') = true /\
  calls e' = calls e ++ [on_change_call] /\
  microbreak_remaining (s e') = microbreak_remaining (s e) /\
  after_micro (s e') = after_micro (s e).
Proof.
  intros ? ? ? ? ? Hdue e'; subst e'. open_engine e.
  exec; bool_hyps; subst; try done;
    repeat split; first [ done | lia | by case_bool_decide ].
Qed.

(** X18. The tick that brings a focus countdown to 2400 or 1200 seconds for
    the first time, with screen breaks on and a positive microbreak length,
    records the threshold and opens a microbreak of [micro_sec] seconds that
    will resume focus; the countdown stands at the threshold. *)
Theorem X18_on_tick_reminder (e : FocusClockLogic) :
  profile (s e) = study -> running (s e) = true -> finished (s e) = false ->
  microbreak_active (s e) = false -> mode (s e) = focus ->
  remaining (s e) - 1 = 2400 \/ remaining (s e) - 1 = 1200 ->
  remaining (s e) - 1 ∈ remind_at (s e) ->
  remaining (s e) - 1 ∉ reminded_this_focus (s e) ->
  screen_breaks_enabled (s e) = true -> 0 < micro_sec (s e) ->
  let e' := on_tick e in
  microbreak_active (s e') = true /\
  microbreak_remaining (s e') = micro_sec (s e) /\
  after_micro (s e') = resume_focus /\
  mode (s e') = focus /\ remaining (s e') = remaining (s e) - 1 /\
  reminded_this_focus (s e')
  = {[ remaining (s e) - 1 ]} ∪ reminded_this_focus (s e) /\
  completed_units (s e') = completed_units (s e).
Proof.
  intros ? ? ? ? ? Hthr Hin Hnot ? ? e'; subst e'. open_engine e.
  exec; bool_hyps; subst; try done; try lia.
Qed.

(** X19. In the worklog profile a tick is a stopwatch second: when running
    (and not finished) it adds one to [total_open_sec], [focus_work_sec] and
    [work_elapsed_sec]; when not running it adds nothing. Either way it
    leaves mode, countdown, completed units, [paused_sec] and
    [microbreak_sec] alone. *)
Theorem X19_on_tick_worklog (e : FocusClockLogic) :
  profile (s e) = worklog -> finished (s e) = false ->
  let e' := on_tick e in
  let d := if running (s e) then 1 else 0 in
  total_open_sec (s e') = total_open_sec (s e) + d /\
  focus_work_sec (s e') = focus_work_sec (s e) + d /\
  work_elapsed_sec (s e') = work_elapsed_sec (s e) + d /\
  mode (s e') = mode (s e) /\ remaining (s e') = remaining (s e) /\
  completed_units (s e') = completed_units (s e) /\
  paused_sec (s e') = paused_sec (s e) /\
  microbreak_sec (s e') = microbreak_sec (s e) /\
  running (s e') = running (s e).
Proof.
  intros ? ? e' d; subst e' d. open_engine e.
  exec; bool_hyps; subst; repeat split; first [ done | lia ].
Qed.

(** ** Reset, settings and play/pause *)

(** X20. [reset_all] in the study profile stops the clock and starts a fresh
    session: focus at full length, no unit completed, not finished, no
    overlay, no reminder fired, all four statistics at zero, an empty log and
    no open segment; the five settings are kept. In the worklog profile it
    stops the clock, zeroes the stopwatch and empties the log, and keeps the
    statistics. In both profiles a second reset changes nothing more. *)
Theorem X20_reset_all (e : FocusClockLogic) :
  let c := s e in
  let c' := s (reset_all e) in
  (running c' = false /\ log c' = [] /\ _segment_start c' = None /\
   _segment_kind c' = NO_KIND /\
   focus_min c' = focus_min c /\ break_min c' = break_min c /\
   micro_sec c' = micro_sec c /\ session_goal c' = session_goal c /\
   screen_breaks_enabled c' = screen_breaks_enabled c) /\
  (profile c = study ->
   mode c' = focus /\ remaining c' = focus_min c * 60 /\
   completed_units c' = 0 /\ finished c' = false /\
   microbreak_active c' = false /\ microbreak_remaining c' = 0 /\
   after_micro c' = no_after /\ reminded_this_focus c' = ∅ /\
   total_open_sec c' = 0 /\ paused_sec c' = 0 /\ microbreak_sec c' = 0 /\
   focus_work_sec c' = 0) /\
  (profile c = worklog ->
   work_elapsed_sec c' = 0 /\
   total_open_sec c' = total_open_sec c /\
   focus_work_sec c' = focus_work_sec c /\
   mode c' = mode c /\ remaining c' = remaining c /\
   completed_units c' = completed_units c /\
   paused_sec c' = paused_sec c /\ microbreak_sec c' = microbreak_sec c) /\
  s (reset_all (reset_all e)) = c'.
Proof.
  intros c c'; subst c c'.
  split; [|split; [|split]].
  - open_engine e. exec; finish.
  - intros. open_engine e. exec; finish.
  - intros. open_engine e. exec; finish.
  - open_engine e. exec; record_nf; reflexivity.
Qed.

(** X21. Applying the same settings twice is the same as applying them once:
    the second call leaves the state as the first one made it. *)
Theorem X21_apply_settings_twice fm bm ms goal su sbe (e : FocusClockLogic) :
  s (apply_settings fm bm ms goal su sbe (apply_settings fm bm ms goal su sbe e))
  = s (apply_settings fm bm ms goal su sbe e).
Proof.
  open_engine e. exec; record_nf; try reflexivity; bool_hyps; congruence.
Qed.

(** X22. Accepting the settings dialog without a change, that is applying the
    current settings with [current_unit] as the starting unit, keeps the
    completed units of an unfinished session whose counter is within the
    goal; while the clock runs or a microbreak is on it changes nothing at
    all in the state. *)
Theorem X22_apply_current_settings (e : FocusClockLogic) :
  finished (s e) = false ->
  0 <= completed_units (s e) < session_goal (s e) ->
  let c := s e in
  let e' := apply_settings (focus_min c) (break_min c) (micro_sec c)
              (session_goal c) (current_unit c) (screen_breaks_enabled c) e in
  completed_units (s e') = completed_units c /\
  (running c = true \/ microbreak_active c = true -> s e' = c).
Proof.
  intros Hf Hc c e'; subst c e'. unfold current_unit. rewrite Hf.
  split; [|intros Hbusy]; open_engine e; exec; bool_hyps; subst;
    try done; try lia.
  all: record_nf; f_equal; lia.
Qed.

(** X23. On a session that is not finished [toggle_play_pause] flips the
    running flag and rolls the segment, and touches nothing else: the state
    afterwards is the one before with [running] negated and the log and
    cursor possibly changed. *)
Theorem X23_toggle_play_pause (e : FocusClockLogic) :
  finished (s e) = false ->
  exists l k t,
    s (toggle_play_pause e)
    = with_segment l k t (set_running (negb (running (s e))) (s e)).
Proof.
  open_engine e. exec; bool_hyps; subst; do 3 eexists; record_nf; reflexivity.
Qed.

(** ** The end of a focus unit *)

Lemma on_tick_focus_ends (e : FocusClockLogic) :
  profile (s e) = study -> running (s e) = true -> finished (s e) = false ->
  microbreak_active (s e) = false -> mode (s e) = focus ->
  remaining (s e) = 1 ->
  completed_units (s e) + 1 < session_goal (s e) ->
  screen_breaks_enabled (s e) = true -> 0 < micro_sec (s e) ->
  let e' := on_tick e in
  (profile (s e') = study /\ running (s e') = true /\
   finished (s e') = false /\ microbreak_active (s e') = true) /\
  microbreak_remaining (s e') = micro_sec (s e) /\
  after_micro (s e') = go_break /\
  completed_units (s e') = completed_units (s e) + 1 /\
  break_min (s e') = break_min (s e) /\
  mode (s e') = focus /\ remaining (s e') = 0.
Proof.
  intros ? ? ? ? ? ? ? ? ? e'; subst e'. open_engine e. exec; finish.
Qed.

(** X24. The end of a focus unit below the goal, with screen breaks on and a
    microbreak of [k] seconds: the tick that brings the countdown from 1 to 0
    counts the unit and opens a microbreak, and [k] further ticks lead into
    the break at its full length, with the clock still running. *)
Theorem X24_focus_unit_ends_in_break (k : nat) (e : FocusClockLogic) :
  profile (s e) = study -> running (s e) = true -> finished (s e) = false ->
  microbreak_active (s e) = false -> mode (s e) = focus ->
  remaining (s e) = 1 ->
  completed_units (s e) + 1 < session_goal (s e) ->
  screen_breaks_enabled (s e) = true ->
  (0 < k)%nat -> micro_sec (s e) = Z.of_nat k ->
  (microbreak_active (s (on_tick e)) = true /\ mode (s (on_tick e)) = focus /\
   completed_units (s (on_tick e)) = completed_units (s e) + 1) /\
  let e' := ticks k (on_tick e) in
  mode (s e') = break /\ remaining (s e') = break_min (s e) * 60 /\
  completed_units (s e') = completed_units (s e) + 1 /\
  microbreak_active (s e') = false.
Proof.
  intros Hp Hr Hf Ha Hm Hrem Hc Hsb Hk Hms.
  destruct (on_tick_focus_ends e Hp Hr Hf Ha Hm Hrem Hc Hsb ltac:(lia))
    as ((Hp' & Hr' & Hf' & Ha') & Hk' & Haf & Hc' & Hbm & Hm' & Hrem').
  split; [by repeat split|].
  destruct (ticks_microbreak_positive k (on_tick e)) as [Hend _]; try done; [congruence|].
  destruct Hend as (Ha2 & _ & _ & Hc2 & Hcont). rewrite Haf in Hcont.
  destruct Hcont as [Hmb Hrb]. cbv zeta.
  repeat split; congruence.
Qed.

(** ** Focus progress *)

(** X25. The progress figures are clamped: whenever the planned total
    (goal times focus length) is not negative, [done] lies between 0 and
    [total], and [left] is what is missing to the total and is not negative.
    A finished session that has reached its goal is reported as complete;
    an unfinished focus phase with its countdown within the focus length and
    its unit counter below the goal is reported without clamping. *)
Theorem X25_calc_focus_progress (c : ClockState) :
  0 <= session_goal c * (focus_min c * 60) ->
  let done := (calc_focus_progress c).1.1 in
  let left := (calc_focus_progress c).1.2 in
  let total := (calc_focus_progress c).2 in
  total = session_goal c * (focus_min c * 60) /\
  0 <= done <= total /\ 0 <= left /\ done + left = total /\
  (finished c = true -> completed_units c = session_goal c ->
   done = total /\ left = 0) /\
  (finished c = false -> mode c = focus ->
   0 <= completed_units c < session_goal c ->
   0 <= remaining c <= focus_min c * 60 ->
   done = completed_units c * (focus_min c * 60)
          + (focus_min c * 60 - remaining c)).
Proof.
  intros Htotal done left total; subst done left total.
  unfold calc_focus_progress; cbn [fst snd].
  set (block := focus_min c * 60) in *.
  split; [done|]. split; [lia|]. split; [lia|]. split; [lia|]. split.
  - intros Hf Hc. rewrite Hf, andb_false_r, Hc. lia.
  - intros Hf Hm Hc Hr. rewrite Hf, bool_decide_eq_true_2 by done. cbn.
    assert (0 <= block) by lia.
    assert (completed_units c * block + block <= session_goal c * block) by nia.
    assert (0 <= completed_units c * block) by nia.
    lia.
Qed.

(** ** The profile switch *)

Lemma close_segment_shape (c : ClockState) (n : nat) (tr : list Callback) :
  exists l k t n',
    _close_segment None (mkLogic c n tr)
    = mkLogic (with_segment l k t c) n' tr.
Proof.
  destruct c.
  unfold _close_segment, or_now, _now, seq, upd; record_nf.
  destruct _segment_start0; [case_bool_decide|]; record_nf;
    do 4 eexists; reflexivity.
Qed.

(** X26. The profile switch of the window always stops the clock and flips
    the profile, keeping the completed units and the statistics. Going to
    the worklog it zeroes the stopwatch, clears the finished flag and the
    microbreak overlay, and keeps mode and countdown; coming back to study it
    starts a focus phase at full length. *)
Theorem X26_toggle_profile (e : FocusClockLogic) :
  let c := s e in
  let c' := s (toggle_profile e) in
  running c' = false /\
  completed_units c' = completed_units c /\
  total_open_sec c' = total_open_sec c /\
  focus_work_sec c' = focus_work_sec c /\ paused_sec c' = paused_sec c /\
  microbreak_sec c' = microbreak_sec c /\
  (profile c = study ->
   profile c' = worklog /\ work_elapsed_sec c' = 0 /\ finished c' = false /\
   microbreak_active c' = false /\ microbreak_remaining c' = 0 /\
   after_micro c' = no_after /\
   mode c' = mode c /\ remaining c' = remaining c) /\
  (profile c = worklog ->
   profile c' = study /\ mode c' = focus /\
   remaining c' = focus_min c * 60 /\ finished c' = finished c).
Proof.
  intros c c'; subst c c'. destruct e as [c n tr].
  unfold toggle_profile, seq.
  destruct (close_segment_shape c n tr) as (l & k & t & n' & ->).
  unfold branch, upd, _on_change; cbn [s clock_reads calls].
  destruct c; unfold with_segment; record_nf.
  destruct profile0; cbn; unfold set_profile; record_nf;
    repeat split; done.
Qed.

End Engine.

(** ** The theorems at sample inputs *)

Lemma C2_witness :
  profile (s last_unit_engine) = study /\
  completed_units (s last_unit_engine) = session_goal (s last_unit_engine) - 1 /\
  goal_reached last_unit_engine
    (finish_focus_unit wall_seconds true last_unit_engine) /\
  goal_reached last_unit_engine (on_tick wall_seconds last_unit_engine).
Proof.
  split; [reflexivity|]. split; [reflexivity|].
  destruct (C2_finish_focus_unit_reaches_goal wall_seconds last_unit_engine
              eq_refl eq_refl) as [Hfinish Htick].
  split.
  - apply (Hfinish true).
  - apply Htick; reflexivity.
Defined.

Lemma C3_witness :
  profile (s fourth_unit_engine) = study /\
  finished (s fourth_unit_engine) = false /\
  microbreak_active (s fourth_unit_engine) = false /\
  mode (s fourth_unit_engine) = focus /\
  completed_units (s (rewind_phase wall_seconds fourth_unit_engine)) = 3 - 1 /\
  mode (s (rewind_phase wall_seconds fourth_unit_engine)) = break /\
  remaining (s (rewind_phase wall_seconds fourth_unit_engine)) = 10 * 60.
Proof.
  do 4 (split; [reflexivity|]).
  destruct (C3_rewind_phase_in_focus wall_seconds fourth_unit_engine
              eq_refl eq_refl eq_refl eq_refl) as (_ & _ & Hback).
  apply Hback; vm_compute; congruence.
Defined.

Lemma C4_witness :
  profile (s in_microbreak_engine) = study /\
  running (s in_microbreak_engine) = true /\
  finished (s in_microbreak_engine) = false /\
  microbreak_active (s in_microbreak_engine) = true /\
  microbreak_remaining (s in_microbreak_engine) > 1 /\
  remaining (s (on_tick wall_seconds in_microbreak_engine)) = 2400 /\
  microbreak_remaining (s (on_tick wall_seconds in_microbreak_engine)) = 59.
Proof.
  do 4 (split; [reflexivity|]). split; [reflexivity|].
  destruct (C4_on_tick_inside_microbreak wall_seconds in_microbreak_engine
              eq_refl eq_refl eq_refl eq_refl eq_refl)
    as (Hr & _ & _ & _ & _ & Hm & _).
  split; [exact Hr | exact Hm].
Defined.

Lemma C5_witness :
  finished (s initial) = false /\
  mode (s (ticks wall_seconds 3600 (start_lunch_break wall_seconds initial)))
  = mode (s initial) /\
  remaining (s (ticks wall_seconds 3600 (start_lunch_break wall_seconds initial)))
  = remaining (s initial) /\
  running (s (ticks wall_seconds 3600 (start_lunch_break wall_seconds initial)))
  = running (s initial) /\
  completed_units
    (s (ticks wall_seconds 3600 (start_lunch_break wall_seconds initial)))
  = completed_units (s initial).
Proof.
  split; [reflexivity|].
  destruct (C5_lunch_round_trip wall_seconds initial eq_refl)
    as (_ & _ & Hstudy & _).
  destruct (Hstudy eq_refl) as (_ & Hround). exact Hround.
Defined.

Lemma C6_witness :
  (screen_breaks_enabled (s no_screen_breaks_engine) = false \/
   micro_sec (s no_screen_breaks_engine) <= 0) /\
  microbreak_active
    (s (start_microbreak wall_seconds go_break no_screen_breaks_engine)) = false /\
  mode (s (start_microbreak wall_seconds go_break no_screen_breaks_engine))
  = break /\
  remaining (s (start_microbreak wall_seconds go_break no_screen_breaks_engine))
  = 10 * 60.
Proof.
  assert (Hoff : screen_breaks_enabled (s no_screen_breaks_engine) = false \/
                 micro_sec (s no_screen_breaks_engine) <= 0)
    by (left; reflexivity).
  split; [exact Hoff|].
  destruct (C6_start_microbreak_disabled wall_seconds go_break
              no_screen_breaks_engine Hoff) as (Ha & _ & _ & Hm & Hr).
  repeat split; assumption.
Defined.

Lemma C7_witness :
  forallb goal_positive sample_session = true /\
  units_in_range (s (run wall_seconds sample_session initial)).
Proof.
  split; [reflexivity|].
  apply (C7_units_in_range_reachable wall_seconds sample_session).
  reflexivity.
Defined.

(** C7 as stated fails: after settings with a goal of zero, skipping the
    focus phase completes one unit, one more than the goal. *)
Lemma C7_counterexample :
  ~ units_in_range (s (run wall_seconds zero_goal_session initial)).
Proof.
  intros [[_ Hle] _]. vm_compute in Hle. by apply Hle.
Qed.

Lemma wall_seconds_monotone : wall_monotone wall_seconds.
Proof. intros i j Hij. unfold wall_seconds. lia. Defined.

Lemma C8_witness :
  wall_monotone wall_seconds /\
  forall x : LogEntry,
    x ∈ log (s (run wall_seconds sample_session initial)) ->
    start_at x <= end_at x.
Proof.
  split; [exact wall_seconds_monotone|].
  apply (C8_segment_log_gap_free wall_seconds sample_session).
  exact wall_seconds_monotone.
Defined.

(** C8 as stated fails in two ways. With a clock that is set back between
    two readings, starting and pausing logs a focus entry that ends before it
    starts. And when the window closes the open segment itself, as its CSV
    export does with [logic._close_segment()], the entry logged next starts
    later than the one before it ended. *)
Lemma C8_counterexample :
  ~ entries_ordered (log (s (run wall_back [Start; Pause] initial))) /\
  ~ gap_free
      (log (s (run wall_seconds [OnTick; Pause]
                 (_close_segment wall_seconds None
                    (run wall_seconds [Start] initial))))).
Proof.
  split.
  - assert (Hlog : log (s (run wall_back [Start; Pause] initial))
                   = [mkLogEntry FOCUS 0 (-1)]) by (vm_compute; reflexivity).
    rewrite Hlog. intros Hord.
    assert (H : start_at (mkLogEntry FOCUS 0 (-1))
                <= end_at (mkLogEntry FOCUS 0 (-1)))
      by (apply Hord; left).
    cbn in H. lia.
  - assert (Hlog : log (s (run wall_seconds [OnTick; Pause]
                             (_close_segment wall_seconds None
                                (run wall_seconds [Start] initial))))
                   = [mkLogEntry FOCUS 0 1; mkLogEntry FOCUS 2 3])
      by (vm_compute; reflexivity).
    rewrite Hlog. intros Hgap.
    specialize (Hgap 0%nat (mkLogEntry FOCUS 0 1) (mkLogEntry FOCUS 2 3)
                  eq_refl eq_refl).
    cbn in Hgap. lia.
Qed.

Lemma C10_witness :
  (profile (s reminded_engine) = study /\
   finished (s reminded_engine) = false /\
   running (s reminded_engine) = true /\
   microbreak_active (s reminded_engine) = false /\
   mode (s reminded_engine) = focus /\
   0 < remaining (s reminded_engine) - 1 /\
   remaining (s reminded_engine) - 1 ∈ reminded_this_focus (s reminded_engine)) /\
  microbreak_active (s (on_tick wall_seconds reminded_engine)) = false /\
  reminded_this_focus (s (on_tick wall_seconds reminded_engine))
  = reminded_this_focus (s reminded_engine).
Proof.
  assert (Hin : remaining (s reminded_engine) - 1
                ∈ reminded_this_focus (s reminded_engine))
    by (vm_compute; reflexivity).
  split; [repeat split; first [reflexivity | exact Hin]|].
  destruct (C10_apply_settings_keeps_reminded wall_seconds) as (_ & _ & Htick).
  destruct (Htick reminded_engine eq_refl eq_refl eq_refl eq_refl eq_refl
              eq_refl Hin) as (Ha & Hr & _).
  split; [exact Ha | exact Hr].
Defined.

(** ** The further properties at sample inputs *)

Lemma X4_witness :
  OnTick <> ResetAll /\
  (microbreak_sec (s (perform wall_seconds OnTick in_microbreak_engine))
   = microbreak_sec (s in_microbreak_engine) \/
   focus_work_sec (s (perform wall_seconds OnTick in_microbreak_engine))
   = focus_work_sec (s in_microbreak_engine)).
Proof.
  assert (Hop : OnTick <> ResetAll) by discriminate.
  split; [exact Hop|].
  apply (X4_counters_advance_by_one wall_seconds OnTick in_microbreak_engine Hop).
Defined.

Lemma X5_witness :
  forallb goal_positive short_session = true /\
  finished (s (run wall_seconds short_session initial)) = true /\
  completed_units (s (run wall_seconds short_session initial))
  = session_goal (s (run wall_seconds short_session initial)).
Proof.
  split; [reflexivity|]. split; [reflexivity|].
  apply (X5_finished_at_goal_reachable wall_seconds short_session);
    reflexivity.
Defined.

Lemma X6_witness :
  forallb goal_positive sample_session = true /\
  1 <= current_unit (s (run wall_seconds sample_session initial))
    <= session_goal (s (run wall_seconds sample_session initial)).
Proof.
  split; [reflexivity|].
  apply (X6_current_unit_in_range wall_seconds sample_session). reflexivity.
Defined.



Lemma X10_witness :
  (profile (s fourth_unit_engine) = study /\
   finished (s fourth_unit_engine) = false /\
   microbreak_active (s fourth_unit_engine) = false /\
   mode (s fourth_unit_engine) = focus /\
   completed_units (s fourth_unit_engine) + 1
   < session_goal (s fourth_unit_engine)) /\
  completed_units (s (skip_phase wall_seconds fourth_unit_engine))
  = completed_units (s fourth_unit_engine) + 1 /\
  mode (s (skip_phase wall_seconds fourth_unit_engine)) = break.
Proof.
  split; [repeat split; reflexivity|].
  destruct (X10_skip_phase_in_focus wall_seconds fourth_unit_engine
              eq_refl eq_refl eq_refl eq_refl eq_refl) as (Hc & Hm & _).
  split; [exact Hc | exact Hm].
Defined.

Lemma X11_witness :
  (profile (s in_break_engine) = study /\
   finished (s in_break_engine) = false /\
   microbreak_active (s in_break_engine) = false /\
   mode (s in_break_engine) <> focus) /\
  mode (s (skip_phase wall_seconds in_break_engine)) = focus /\
  remaining (s (skip_phase wall_seconds in_break_engine))
  = focus_min (s in_break_engine) * 60.
Proof.
  assert (Hm : mode (s in_break_engine) <> focus) by discriminate.
  split; [repeat split; first [reflexivity | exact Hm]|].
  destruct (X11_skip_phase_out_of_focus wall_seconds in_break_engine
              eq_refl eq_refl eq_refl Hm) as (Hf & Hr & _).
  split; [exact Hf | exact Hr].
Defined.

Lemma X12_witness :
  finished (s finished_engine) = true /\
  on_tick wall_seconds finished_engine = finished_engine /\
  skip_phase wall_seconds finished_engine = finished_engine.
Proof.
  split; [reflexivity|].
  destruct (X12_finished_is_frozen wall_seconds finished_engine eq_refl)
    as (Ht & _ & _ & Hs & _).
  split; [exact Ht | exact Hs].
Defined.

Lemma X13_witness :
  (profile (s in_microbreak_engine) = study /\
   finished (s in_microbreak_engine) = false /\
   microbreak_active (s in_microbreak_engine) = true) /\
  microbreak_active (s (rewind_phase wall_seconds in_microbreak_engine)) = false /\
  remaining (s (rewind_phase wall_seconds in_microbreak_engine))
  = remaining (s in_microbreak_engine).
Proof.
  split; [repeat split; reflexivity|].
  destruct (X13_rewind_phase_in_microbreak wall_seconds in_microbreak_engine
              eq_refl eq_refl eq_refl) as (Ha & _ & _ & _ & Hr & _).
  split; [exact Ha | exact Hr].
Defined.

Lemma X14_witness :
  (profile (s in_break_engine) = study /\
   finished (s in_break_engine) = false /\
   microbreak_active (s in_break_engine) = false /\
   mode (s in_break_engine) = break) /\
  mode (s (rewind_phase wall_seconds in_break_engine)) = focus /\
  remaining (s (rewind_phase wall_seconds in_break_engine))
  = focus_min (s in_break_engine) * 60.
Proof.
  split; [repeat split; reflexivity|].
  destruct (X14_rewind_phase_in_break wall_seconds in_break_engine
              eq_refl eq_refl eq_refl eq_refl) as (_ & _ & Hnear).
  destruct Hnear as (Hm & Hr & _); [vm_compute; discriminate|].
  split; [exact Hm | exact Hr].
Defined.

Lemma X15_witness :
  (profile (s fourth_unit_engine) = study /\
   finished (s fourth_unit_engine) = false) /\
  remaining (s (rewind_phase wall_seconds
                  (start_lunch_break wall_seconds fourth_unit_engine)))
  = remaining (s fourth_unit_engine).
Proof.
  split; [split; reflexivity|].
  destruct (X15_rewind_undoes_lunch wall_seconds fourth_unit_engine
              eq_refl eq_refl) as (_ & Hr & _).
  exact Hr.
Defined.

Lemma X16_witness :
  (profile (s in_microbreak_engine) = study /\
   running (s in_microbreak_engine) = true /\
   finished (s in_microbreak_engine) = false /\
   microbreak_active (s in_microbreak_engine) = true /\
   (0 < 60)%nat /\
   microbreak_remaining (s in_microbreak_engine) = Z.of_nat 60) /\
  after_microbreak in_microbreak_engine
    (ticks wall_seconds 60 in_microbreak_engine).
Proof.
  assert (Hk : (0 < 60)%nat) by lia.
  split; [repeat split; first [reflexivity | exact Hk]|].
  apply (X16_ticks_through_microbreak wall_seconds 60 in_microbreak_engine
           eq_refl eq_refl eq_refl eq_refl Hk eq_refl).
Defined.

Lemma X17_witness :
  (profile (s reminded_engine) = study /\
   running (s reminded_engine) = true /\
   finished (s reminded_engine) = false /\
   microbreak_active (s reminded_engine) = false /\
   1 < remaining (s reminded_engine) /\
   (mode (s reminded_engine) <> focus \/
    remaining (s reminded_engine) - 1 ∉ remind_at (s reminded_engine) \/
    remaining (s reminded_engine) - 1
    ∈ reminded_this_focus (s reminded_engine))) /\
  remaining (s (on_tick wall_seconds reminded_engine))
  = remaining (s reminded_engine) - 1 /\
  calls (on_tick wall_seconds reminded_engine)
  = calls reminded_engine ++ [on_change_call].
Proof.
  assert (Hdue : mode (s reminded_engine) <> focus \/
                 remaining (s reminded_engine) - 1
                 ∉ remind_at (s reminded_engine) \/
                 remaining (s reminded_engine) - 1
                 ∈ reminded_this_focus (s reminded_engine))
    by (right; right; vm_compute; reflexivity).
  split; [repeat split; first [reflexivity | exact Hdue]|].
  destruct (X17_on_tick_countdown wall_seconds reminded_engine
              eq_refl eq_refl eq_refl eq_refl eq_refl Hdue)
    as (Hr & _ & _ & _ & _ & _ & _ & _ & Hcalls & _).
  split; [exact Hr | exact Hcalls].
Defined.

Lemma X18_witness :
  (profile (s before_reminder_engine) = study /\
   running (s before_reminder_engine) = true /\
   finished (s before_reminder_engine) = false /\
   microbreak_active (s before_reminder_engine) = false /\
   mode (s before_reminder_engine) = focus /\
   (remaining (s before_reminder_engine) - 1 = 2400 \/
    remaining (s before_reminder_engine) - 1 = 1200) /\
   (remaining (s before_reminder_engine) - 1
    ∈ remind_at (s before_reminder_engine)) /\
   (remaining (s before_reminder_engine) - 1
    ∉ reminded_this_focus (s before_reminder_engine)) /\
   screen_breaks_enabled (s before_reminder_engine) = true /\
   0 < micro_sec (s before_reminder_engine)) /\
  microbreak_active (s (on_tick wall_seconds before_reminder_engine)) = true /\
  microbreak_remaining (s (on_tick wall_seconds before_reminder_engine))
  = micro_sec (s before_reminder_engine).
Proof.
  assert (Hthr : remaining (s before_reminder_engine) - 1 = 2400 \/
                 remaining (s before_reminder_engine) - 1 = 1200)
    by (left; reflexivity).
  assert (Hin : remaining (s before_reminder_engine) - 1
                ∈ remind_at (s before_reminder_engine))
    by (vm_compute; reflexivity).
  assert (Hnot : remaining (s before_reminder_engine) - 1
                 ∉ reminded_this_focus (s before_reminder_engine))
    by (intros H; vm_compute in H; discriminate).
  split; [repeat split; first [reflexivity | assumption]|].
  destruct (X18_on_tick_reminder wall_seconds before_reminder_engine
              eq_refl eq_refl eq_refl eq_refl eq_refl Hthr Hin Hnot
              eq_refl eq_refl) as (Ha & Hr & _).
  split; [exact Ha | exact Hr].
Defined.

Lemma X19_witness :
  (profile (s worklog_engine) = worklog /\
   finished (s worklog_engine) = false) /\
  work_elapsed_sec (s (on_tick wall_seconds worklog_engine))
  = work_elapsed_sec (s worklog_engine)
    + (if running (s worklog_engine) then 1 else 0) /\
  remaining (s (on_tick wall_seconds worklog_engine))
  = remaining (s worklog_engine).
Proof.
  split; [split; reflexivity|].
  destruct (X19_on_tick_worklog wall_seconds worklog_engine eq_refl eq_refl)
    as (_ & _ & Hw & _ & Hr & _).
  split; [exact Hw | exact Hr].
Defined.

Lemma X22_witness :
  (finished (s fourth_unit_engine) = false /\
   0 <= completed_units (s fourth_unit_engine)
     < session_goal (s fourth_unit_engine)) /\
  completed_units
    (s (apply_settings (focus_min (s fourth_unit_engine))
          (break_min (s fourth_unit_engine))
          (micro_sec (s fourth_unit_engine))
          (session_goal (s fourth_unit_engine))
          (current_unit (s fourth_unit_engine))
          (screen_breaks_enabled (s fourth_unit_engine))
          fourth_unit_engine))
  = completed_units (s fourth_unit_engine).
Proof.
  assert (Hc : 0 <= completed_units (s fourth_unit_engine)
                 < session_goal (s fourth_unit_engine))
    by (split; [discriminate | reflexivity]).
  split; [split; [reflexivity | exact Hc]|].
  apply (X22_apply_current_settings fourth_unit_engine eq_refl Hc).
Defined.

Lemma X23_witness :
  finished (s fourth_unit_engine) = false /\
  exists l k t,
    s (toggle_play_pause wall_seconds fourth_unit_engine)
    = with_segment l k t
        (set_running (negb (running (s fourth_unit_engine)))
           (s fourth_unit_engine)).
Proof.
  split; [reflexivity|].
  apply (X23_toggle_play_pause wall_seconds fourth_unit_engine eq_refl).
Defined.

Lemma X24_witness :
  (profile (s unit_ending_engine) = study /\
   running (s unit_ending_engine) = true /\
   finished (s unit_ending_engine) = false /\
   microbreak_active (s unit_ending_engine) = false /\
   mode (s unit_ending_engine) = focus /\
   remaining (s unit_ending_engine) = 1 /\
   completed_units (s unit_ending_engine) + 1
   < session_goal (s unit_ending_engine) /\
   screen_breaks_enabled (s unit_ending_engine) = true /\
   (0 < 60)%nat /\ micro_sec (s unit_ending_engine) = Z.of_nat 60) /\
  mode (s (ticks wall_seconds 60 (on_tick wall_seconds unit_ending_engine)))
  = break /\
  remaining (s (ticks wall_seconds 60 (on_tick wall_seconds unit_ending_engine)))
  = break_min (s unit_ending_engine) * 60.
Proof.
  assert (Hk : (0 < 60)%nat) by lia.
  split; [repeat split; first [reflexivity | exact Hk]|].
  destruct (X24_focus_unit_ends_in_break wall_seconds 60 unit_ending_engine
              eq_refl eq_refl eq_refl eq_refl eq_refl eq_refl eq_refl eq_refl
              Hk eq_refl) as (_ & Hm & Hr & _).
  split; [exact Hm | exact Hr].
Defined.

Lemma X25_witness :
  0 <= session_goal default_state * (focus_min default_state * 60) /\
  0 <= (calc_focus_progress default_state).1.1
    <= (calc_focus_progress default_state).2.
Proof.
  assert (Ht : 0 <= session_goal default_state * (focus_min default_state * 60))
    by discriminate.
  split; [exact Ht|].
  destruct (X25_calc_focus_progress default_state Ht) as (_ & Hd & _).
  exact Hd.
Defined.
